(** * rasa.utils.io: configuration loading, archives and path helpers

    A shallow embedding of [rasa/utils/io.py].  The module is a thin layer
    over the Python standard library and over [ruamel.yaml]; the functions
    of the module are translated one by one, the library calls they make
    are the fields of a [Library] record, and the process state they touch
    (environment, file system, the sequence of library calls) is threaded
    through a small state-and-exception monad. *)

From Stdlib Require Import String Ascii List ZArith Bool Lia Floats.
From stdpp Require Import base option gmap strings list.

Local Open Scope string_scope.
Set Warnings "-register-all".

(** ** Python values *)

(** The exceptions the module raises or lets through.  [OSError] carries
    its [errno]; Python maps the number to the subclass
    ([FileNotFoundError] is [ENOENT], [FileExistsError] is [EEXIST], ...). *)
Inductive exn : Type :=
| ValueError (msg : string)
| OSError (errno : Z) (filename : string)
| UnicodeError (reason : string)
| ScannerError (problem : string)
| ParserError (problem : string)
| ConstructorError (problem : string)
| TarError (msg : string)
| BadZipFile (msg : string).

Definition ENOENT : Z := 2.
Definition EACCES : Z := 13.
Definition EEXIST : Z := 17.
Definition ENOTDIR : Z := 20.
Definition EISDIR : Z := 21.
Definition ENAMETOOLONG : Z := 36.

Inductive result (A : Type) : Type :=
| Ok (a : A)
| Raise (e : exn).
Arguments Ok {A} a.
Arguments Raise {A} e.

(** The values a safe YAML load produces in this module's use: the JSON-like
    fragment.  A [dict] keeps its items in insertion order. *)
Inductive pyval : Type :=
| PyNone
| PyBool (b : bool)
| PyInt (z : Z)
| PyFloat (f : float)
| PyStr (s : string)
| PyList (items : list pyval)
| PyDict (items : list (pyval * pyval)).

(** [bool(v)]: Python's truth value. *)
Definition truthy (v : pyval) : bool :=
  match v with
  | PyNone => false
  | PyBool b => b
  | PyInt z => negb (Z.eqb z 0)
  | PyFloat f => negb (PrimFloat.eqb f 0%float)
  | PyStr s => negb (String.eqb s "")
  | PyList items => match items with [] => false | _ :: _ => true end
  | PyDict items => match items with [] => false | _ :: _ => true end
  end.

(** [a or b]. *)
Definition py_or (a b : pyval) : pyval := if truthy a then a else b.

(** [str(type(v))]. *)
Definition type_name (v : pyval) : string :=
  match v with
  | PyNone => "<class 'NoneType'>"
  | PyBool _ => "<class 'bool'>"
  | PyInt _ => "<class 'int'>"
  | PyFloat _ => "<class 'float'>"
  | PyStr _ => "<class 'str'>"
  | PyList _ => "<class 'list'>"
  | PyDict _ => "<class 'dict'>"
  end.

Definition isinstance_dict (v : pyval) : bool :=
  match v with PyDict _ => true | _ => false end.

(** ** Text

    A Python [str] is modelled by [string]; its characters are the code
    points below 256. *)

Definition chr (n : nat) : ascii := ascii_of_nat n.
Definition ord (c : ascii) : nat := nat_of_ascii c.

Definition between (lo hi n : nat) : bool := Nat.leb lo n && Nat.leb n hi.

(** [c in s] for a character. *)
Fixpoint contains_char (c : ascii) (s : string) : bool :=
  match s with
  | EmptyString => false
  | String d rest => Ascii.eqb c d || contains_char c rest
  end.

(** [sub in s] for strings: [sub] starts at some position of [s]. *)
Fixpoint contains (sub s : string) : bool :=
  String.prefix sub s ||
  match s with
  | EmptyString => false
  | String _ rest => contains sub rest
  end.

(** [str.isspace] on one character. *)
Definition isspace (c : ascii) : bool :=
  let n := ord c in
  between 9 13 n || between 28 32 n || Nat.eqb n 133 || Nat.eqb n 160.

(** [s.split()]: the maximal runs of characters that are not whitespace. *)
Fixpoint split_ws (word : string) (s : string) : list string :=
  match s with
  | EmptyString => match word with EmptyString => [] | _ => [word] end
  | String c rest =>
      if isspace c
      then match word with
           | EmptyString => split_ws EmptyString rest
           | _ => word :: split_ws EmptyString rest
           end
      else split_ws (word +:+ String c EmptyString) rest
  end.

Definition py_split (s : string) : list string := split_ws EmptyString s.

(** [sep.join(parts)]. *)
Fixpoint join (sep : string) (parts : list string) : string :=
  match parts with
  | [] => ""
  | [p] => p
  | p :: rest => p +:+ sep +:+ join sep rest
  end.

(** [s.split(sep)] for a one-character separator. *)
Fixpoint split_on (sep : ascii) (piece : string) (s : string) : list string :=
  match s with
  | EmptyString => [piece]
  | String c rest =>
      if Ascii.eqb c sep
      then piece :: split_on sep EmptyString rest
      else split_on sep (piece +:+ String c EmptyString) rest
  end.

(** *** [repr] of a string and of a list of strings *)

Definition hex_digit (n : nat) : ascii :=
  if Nat.ltb n 10 then chr (48 + n) else chr (87 + n).

Definition hex_escape (c : ascii) : string :=
  String "\" (String "x"
    (String (hex_digit (ord c / 16)) (String (hex_digit (ord c mod 16)) EmptyString))).

(** [str.isprintable] on the code points from 128 to 255. *)
Definition latin1_printable (n : nat) : bool :=
  between 161 255 n && negb (Nat.eqb n 173).

Definition repr_char (quote c : ascii) : string :=
  let n := ord c in
  if Ascii.eqb c quote || Ascii.eqb c "\" then String "\" (String c EmptyString)
  else if Nat.eqb n 9 then "\t"
  else if Nat.eqb n 10 then "\n"
  else if Nat.eqb n 13 then "\r"
  else if Nat.ltb n 32 || Nat.eqb n 127 then hex_escape c
  else if Nat.ltb n 127 || latin1_printable n then String c EmptyString
  else hex_escape c.

Fixpoint repr_chars (quote : ascii) (s : string) : string :=
  match s with
  | EmptyString => EmptyString
  | String c rest => repr_char quote c +:+ repr_chars quote rest
  end.

Definition single_quote : ascii := "'".
Definition double_quote : ascii := chr 34.

(** [repr(s)]: single quotes, unless [s] holds one and no double quote. *)
Definition repr_str (s : string) : string :=
  let quote :=
    if contains_char single_quote s && negb (contains_char double_quote s)
    then double_quote else single_quote in
  String quote (repr_chars quote s) +:+ String quote EmptyString.

(** [str(l)] of a list of strings. *)
Definition str_list (l : list string) : string :=
  "[" +:+ join ", " (map repr_str l) +:+ "]".

(** ** [os.path.expandvars]

    The module hands every [!env_var] scalar to [os.path.expandvars].  The
    standard library's function searches the pattern [\$(\w+|\{[^}]*\})]
    from the end of the previous match, replaces a match by the value of the
    variable when the environment has one and steps over it otherwise. *)

(** [\w] under [re.ASCII]. *)
Definition is_word_char (c : ascii) : bool :=
  let n := ord c in
  between 48 57 n || between 65 90 n || between 97 122 n || Nat.eqb n 95.

(** The longest run of word characters at the head of [s], and the rest. *)
Fixpoint span_word (s : string) : string * string :=
  match s with
  | EmptyString => (EmptyString, EmptyString)
  | String c rest =>
      if is_word_char c
      then let '(w, tail) := span_word rest in (String c w, tail)
      else (EmptyString, s)
  end.

(** [[^}]*\}] at the head of [s]: the text before the first closing brace
    and the text after it. *)
Fixpoint span_brace (s : string) : option (string * string) :=
  match s with
  | EmptyString => None
  | String c rest =>
      if Ascii.eqb c "}" then Some (EmptyString, rest)
      else match span_brace rest with
           | Some (inner, tail) => Some (String c inner, tail)
           | None => None
           end
  end.

(** One match of the pattern: the text before it, the matched text, the
    variable's name (braces stripped) and the text after it. *)
Record var_match : Type := VarMatch {
  vm_before : string;
  vm_matched : string;
  vm_name : string;
  vm_tail : string
}.

(** What follows a dollar sign: [\w+] or [\{[^}]*\}]. *)
Definition match_group (s : string) : option (string * string * string) :=
  match s with
  | EmptyString => None
  | String c rest =>
      if is_word_char c then
        let '(w, tail) := span_word s in Some (w, w, tail)
      else if Ascii.eqb c "{" then
        match span_brace rest with
        | Some (inner, tail) => Some ("{" +:+ inner +:+ "}", inner, tail)
        | None => None
        end
      else None
  end.

(** [_varprog.search]: the leftmost match. *)
Fixpoint search_var (s : string) : option var_match :=
  match s with
  | EmptyString => None
  | String c rest =>
      let skip :=
        match search_var rest with
        | Some m => Some (VarMatch (String c (vm_before m)) (vm_matched m) (vm_name m) (vm_tail m))
        | None => None
        end in
      if Ascii.eqb c "$" then
        match match_group rest with
        | Some (group, name, tail) => Some (VarMatch EmptyString (String c group) name tail)
        | None => skip
        end
      else skip
  end.

(** The [while True] loop of [expandvars]; every turn consumes a match, so
    the length of the path bounds the number of turns. *)
Fixpoint expand_loop (turns : nat) (environ : gmap string string) (path : string) : string :=
  match turns with
  | O => path
  | S turns' =>
      match search_var path with
      | None => path
      | Some m =>
          match environ !! vm_name m with
          | None => vm_before m +:+ vm_matched m +:+ expand_loop turns' environ (vm_tail m)
          | Some value => vm_before m +:+ value +:+ expand_loop turns' environ (vm_tail m)
          end
      end
  end.

Definition expandvars (environ : gmap string string) (path : string) : string :=
  expand_loop (String.length path) environ path.

(** ** Documents, the file system and the process state *)

(** A composed YAML document, every scalar with the tag the resolver gave
    it. *)
Inductive node : Type :=
| ScalarNode (tag value : string)
| SequenceNode (items : list node)
| MappingNode (pairs : list (node * node)).

Definition str_tag : string := "tag:yaml.org,2002:str".
Definition env_var_tag : string := "!env_var".

(** Induction on documents, the children of a node included. *)

Section NodeInduction.

Variable P : node -> Prop.
Hypothesis scalar_case : forall tag value, P (ScalarNode tag value).
Hypothesis sequence_case : forall items, Forall P items -> P (SequenceNode items).
Hypothesis mapping_case :
  forall pairs, Forall (fun kv => P (fst kv) /\ P (snd kv)) pairs -> P (MappingNode pairs).

Fixpoint node_induction (n : node) : P n :=
  match n with
  | ScalarNode tag value => scalar_case tag value
  | SequenceNode items =>
      sequence_case items
        ((fix all (l : list node) : Forall P l :=
            match l with
            | [] => @List.Forall_nil _ P
            | x :: l' => @List.Forall_cons _ P x l' (node_induction x) (all l')
            end) items)
  | MappingNode pairs =>
      mapping_case pairs
        ((fix all (l : list (node * node)) : Forall (fun kv => P (fst kv) /\ P (snd kv)) l :=
            match l with
            | [] => @List.Forall_nil _ _
            | kv :: l' =>
                @List.Forall_cons _ _ kv l' (conj (node_induction (fst kv)) (node_induction (snd kv))) (all l')
            end) pairs)
  end.

End NodeInduction.

(** The constructors the module registers with the YAML classes. *)
Inductive custom_constructor : Type :=
| construct_yaml_str
| env_var_constructor_id.

(** What a path names.  [Undecodable] is a regular file whose bytes are not
    text in the encoding asked for.  The keys are paths from the working
    directory, or absolute paths; what [open] answers for a path that is no
    key is worked out by [path_entry] below. *)
Inductive fs_entry : Type :=
| RegularFile (content : string)
| Undecodable
| Directory.

Abbreviation file_system := (gmap string fs_entry).

(** The library calls a run records, in the order they are made. *)
Inductive event : Type :=
| ParseYaml (content : string)
| ExtractTar (directory : string)
| ExtractZip (directory : string)
| Makedirs (name : string).

Record world : Type := World {
  environ : gmap string string;
  files : file_system;
  yaml_constructors : gmap string custom_constructor;
  calls : list event
}.

Definition set_files (fs : file_system) (w : world) : world :=
  World (environ w) fs (yaml_constructors w) (calls w).

Definition add_constructor (tag : string) (c : custom_constructor) (w : world) : world :=
  World (environ w) (files w) (<[tag := c]> (yaml_constructors w)) (calls w).

Definition log_call (e : event) (w : world) : world :=
  World (environ w) (files w) (yaml_constructors w) (calls w ++ [e]).

(** ** The monad of the embedding: state, and exceptions that keep the
    state reached when they were raised. *)

Definition py (A : Type) : Type := world -> world * result A.

Definition ret {A : Type} (a : A) : py A := fun w => (w, Ok a).
Definition raise {A : Type} (e : exn) : py A := fun w => (w, Raise e).
Definition lift {A : Type} (r : result A) : py A := fun w => (w, r).

Definition bind {A B : Type} (m : py A) (k : A -> py B) : py B :=
  fun w =>
    match m w with
    | (w', Ok a) => k a w'
    | (w', Raise e) => (w', Raise e)
    end.

Notation "x <- m ;; k" := (bind m (fun x => k))
  (at level 100, m at next level, right associativity).
Notation "m ;;; k" := (bind m (fun _ => k))
  (at level 100, right associativity).

(** [try: body except ...: handler]: the handler says which exceptions it
    catches. *)
Definition try_except {A : Type} (body : py A) (handler : exn -> option (py A)) : py A :=
  fun w =>
    match body w with
    | (w', Ok a) => (w', Ok a)
    | (w', Raise e) =>
        match handler e with
        | Some recover => recover w'
        | None => (w', Raise e)
        end
    end.

Definition get_world : py world := fun w => (w, Ok w).
Definition modify (f : world -> world) : py unit := fun w => (f w, Ok tt).

Definition outcome {A : Type} (m : py A) (w : world) : result A := snd (m w).
Definition after {A : Type} (m : py A) (w : world) : world := fst (m w).

(** The error monad of the pure parts. *)
Definition rbind {A B : Type} (r : result A) (k : A -> result B) : result B :=
  match r with
  | Ok a => k a
  | Raise e => Raise e
  end.

(** ** The libraries

    What the module calls and does not define.  Byte strings are [string]s
    too. *)
Record Library : Type := {
  (** ruamel's reader, scanner, parser, composer and resolver, with the
      module's implicit resolver for [!env_var] registered: the document's
      root node, [None] for a stream with no document. *)
  compose : string -> result (option node);
  (** ruamel's own constructor for a scalar of a tag nothing was registered
      for. *)
  construct_standard : string -> string -> result pyval;
  (** [str.encode("utf-8")], [bytes.decode("raw_unicode_escape")],
      [str.encode("utf-16", "surrogatepass")], [bytes.decode("utf-16")]. *)
  encode_utf8 : string -> result string;
  decode_raw_unicode_escape : string -> result string;
  encode_utf16_surrogatepass : string -> result string;
  decode_utf16 : string -> result string;
  (** [tarfile.open], [extractall], [close] on a byte array: the files
      afterwards, and the first exception raised. *)
  tar_extractall : string -> string -> file_system -> file_system * option exn;
  (** The same through [zipfile.ZipFile]. *)
  zip_extractall : string -> string -> file_system -> file_system * option exn;
  (** [os.makedirs]. *)
  os_makedirs : string -> file_system -> file_system * option exn
}.

(** ** [os.path]: [dirname], [normpath], [abspath] (POSIX) *)

Definition sep : ascii := "/".

(** [p[:p.rfind("/") + 1]]. *)
Fixpoint through_last_sep (p : string) : string :=
  match p with
  | EmptyString => EmptyString
  | String c rest => if contains_char sep p then String c (through_last_sep rest) else EmptyString
  end.

Fixpoint all_sep (s : string) : bool :=
  match s with
  | EmptyString => true
  | String c rest => Ascii.eqb c sep && all_sep rest
  end.

(** [s.rstrip("/")]. *)
Fixpoint rstrip_sep (s : string) : string :=
  match s with
  | EmptyString => EmptyString
  | String c rest => if all_sep s then EmptyString else String c (rstrip_sep rest)
  end.

Definition dirname (p : string) : string :=
  let head := through_last_sep p in
  if negb (String.eqb head "") && negb (all_sep head) then rstrip_sep head else head.

Definition isabs (p : string) : bool := String.prefix "/" p.

(** [os.path.join(a, b)]. *)
Definition path_join (a b : string) : string :=
  if String.prefix "/" b then b
  else if String.eqb a "" || String.eqb (String.substring (String.length a - 1) 1 a) "/"
       then a +:+ b
       else a +:+ "/" +:+ b.

(** The loop of [normpath] over the components; [new_comps] is kept with
    its last element first. *)
Fixpoint norm_comps (initial_slashes : nat) (new_comps : list string) (comps : list string)
  : list string :=
  match comps with
  | [] => rev new_comps
  | comp :: rest =>
      if String.eqb comp "" || String.eqb comp "." then
        norm_comps initial_slashes new_comps rest
      else if negb (String.eqb comp "..")
              || (Nat.eqb initial_slashes 0 && match new_comps with [] => true | _ => false end)
              || match new_comps with last :: _ => String.eqb last ".." | [] => false end
      then norm_comps initial_slashes (comp :: new_comps) rest
      else norm_comps initial_slashes (List.tl new_comps) rest
  end.

Fixpoint repeat_sep (n : nat) : string :=
  match n with
  | O => EmptyString
  | S k => String sep (repeat_sep k)
  end.

Definition normpath (path : string) : string :=
  if String.eqb path "" then "."
  else
    let initial_slashes :=
      if String.prefix "/" path
      then if String.prefix "//" path && negb (String.prefix "///" path) then 2 else 1
      else 0 in
    let comps := norm_comps initial_slashes [] (split_on sep EmptyString path) in
    let path' := repeat_sep initial_slashes +:+ join "/" comps in
    if String.eqb path' "" then "." else path'.

(** [os.path.abspath], in a process whose working directory is [cwd]. *)
Definition abspath (cwd path : string) : string :=
  normpath (if isabs path then path else path_join cwd path).

(** ** [open]: the entry a path names

    A path that is a key of the file system names that entry.  Any other
    path is looked up as the system does it, in a process that may search
    every directory and on a file system without symbolic links: a NUL in
    the path is refused before any lookup, so is a path of [PATH_MAX] bytes
    or more; then the components are walked from the left, an empty one and
    a dot staying in the directory reached, a dot-dot leaving it for its
    parent.  The first component that is too long, that names nothing, or
    that names a regular file with more of the path to come, ends the walk
    with [ENAMETOOLONG], [ENOENT] or [ENOTDIR]. *)

Definition NAME_MAX : nat := 255.
Definition PATH_MAX : nat := 4096.

(** The key of the directory reached through the components [here], the
    last of them first. *)
Definition key_of (absolute : bool) (here : list string) : string :=
  (if absolute then "/" else "") +:+ join "/" (rev here).

(** The parent of the directory reached: the root is its own parent, and
    above the working directory the path is kept with its dot-dots. *)
Definition step_up (absolute : bool) (here : list string) : list string :=
  match here with
  | [] => if absolute then [] else [".."]
  | last :: up => if String.eqb last ".." then ".." :: here else up
  end.

Fixpoint walk (fs : file_system) (filename : string) (absolute : bool)
    (here : list string) (comps : list string) : result fs_entry :=
  match comps with
  | [] => Ok Directory
  | comp :: rest =>
      if String.eqb comp "" || String.eqb comp "." then walk fs filename absolute here rest
      else if String.eqb comp ".." then walk fs filename absolute (step_up absolute here) rest
      else if Nat.ltb NAME_MAX (String.length comp) then Raise (OSError ENAMETOOLONG filename)
      else
        match fs !! key_of absolute (comp :: here) with
        | None => Raise (OSError ENOENT filename)
        | Some Directory => walk fs filename absolute (comp :: here) rest
        | Some entry =>
            match rest with
            | [] => Ok entry
            | _ :: _ => Raise (OSError ENOTDIR filename)
            end
        end
  end.

Definition path_entry (fs : file_system) (filename : string) : result fs_entry :=
  match fs !! filename with
  | Some entry => Ok entry
  | None =>
      if contains_char (chr 0) filename then Raise (ValueError "embedded null byte")
      else if String.eqb filename "" then Raise (OSError ENOENT filename)
      else if Nat.leb PATH_MAX (String.length filename) then Raise (OSError ENAMETOOLONG filename)
      else walk fs filename (isabs filename) [] (split_on sep EmptyString filename)
  end.

(** ** The module *)

Section Io.

Context (lib : Library).

(** [fix_yaml_loader]: [construct_yaml_str], which returns the scalar's
    text, is registered for the string tag with the loader classes.  The
    embedding keeps the registrations of the YAML classes in one registry;
    the safe constructor, which [read_yaml] parses with, builds a string
    scalar to its text as well. *)
Definition fix_yaml_loader : py unit :=
  modify (add_constructor str_tag construct_yaml_str).

(** [env_var_pattern], as [re.match] uses it: the first line holds a dollar
    sign and an opening brace with a closing brace after them, and nothing
    follows that line but its line break. *)
Fixpoint after_open_brace (s : string) : option string :=
  match s with
  | EmptyString => None
  | String c rest =>
      match rest with
      | EmptyString => None
      | String d rest' =>
          if Ascii.eqb c "$" && Ascii.eqb d "{" then Some rest'
          else after_open_brace rest
      end
  end.

Definition env_var_pattern (value : string) : bool :=
  match split_on (chr 10) EmptyString value with
  | [line] | [line; EmptyString] =>
      match after_open_brace line with
      | Some rest => contains_char "}" rest
      | None => false
      end
  | _ => false
  end.

(** The message of the constructor's [ValueError]: the format string with
    the scalar and the list of words put in. *)
Definition expansion_error (value : string) (not_expanded : list string) : string :=
  "Error when trying to expand the environment variables in '" +:+ value
  +:+ "'. Please make sure to also set these environment variables: '"
  +:+ str_list not_expanded +:+ "'.".

(** The messages of [read_file] and of [read_config_file]. *)
Definition missing_file_error (filename : string) : string :=
  "File '" +:+ filename +:+ "' does not exist.".

Definition invalid_config_error (filename : string) (content : pyval) : string :=
  "Tried to load invalid config file '" +:+ filename
  +:+ "'. Expected a key value mapping but found " +:+ type_name content +:+ ".".

(** [env_var_constructor]: the scalar with its variables expanded, or a
    [ValueError] listing the words that still hold a dollar sign. *)
Definition env_var_constructor (environ : gmap string string) (value : string) : result pyval :=
  let expanded_vars := expandvars environ value in
  if contains_char "$" expanded_vars then
    let not_expanded := List.filter (contains_char "$") (py_split expanded_vars) in
    Raise (ValueError (expansion_error value not_expanded))
  else Ok (PyStr expanded_vars).

(** [replace_environment_variables]: the pattern is handed to the resolver
    ([yaml.add_implicit_resolver]), which from then on gives the tag
    [!env_var] to the plain scalars the pattern matches and is never asked
    about a quoted scalar; the constructor is registered for that tag.  The
    resolver works inside [compose]; the embedding records the registration
    of the constructor. *)
Definition replace_environment_variables : py unit :=
  modify (add_constructor env_var_tag env_var_constructor_id).

(** The constructor's dispatch on a scalar's tag: a registered constructor
    first, the library's own otherwise. *)
Definition construct_scalar
    (environ : gmap string string) (registry : gmap string custom_constructor)
    (tag value : string) : result pyval :=
  match registry !! tag with
  | Some construct_yaml_str => Ok (PyStr value)
  | Some env_var_constructor_id => env_var_constructor environ value
  | None => construct_standard lib tag value
  end.

(** [construct_document]: children are built in document order, a mapping's
    key before its value; the first exception ends the construction.  A
    mapping is kept as the list of its pairs, a repeated key with it, where
    ruamel raises an error for the repetition; and ruamel fills a nested
    collection after the scalars beside it, so of two scalars that fail at
    different depths the first here need not be ruamel's first. *)
Fixpoint construct_object
    (environ : gmap string string) (registry : gmap string custom_constructor)
    (n : node) : result pyval :=
  match n with
  | ScalarNode tag value => construct_scalar environ registry tag value
  | SequenceNode items =>
      rbind
        ((fix construct_sequence (l : list node) : result (list pyval) :=
            match l with
            | [] => Ok []
            | x :: l' =>
                rbind (construct_object environ registry x) (fun v =>
                rbind (construct_sequence l') (fun vs => Ok (v :: vs)))
            end) items)
        (fun vs => Ok (PyList vs))
  | MappingNode pairs =>
      rbind
        ((fix construct_mapping (l : list (node * node)) : result (list (pyval * pyval)) :=
            match l with
            | [] => Ok []
            | (k, x) :: l' =>
                rbind (construct_object environ registry k) (fun key =>
                rbind (construct_object environ registry x) (fun v =>
                rbind (construct_mapping l') (fun kvs => Ok ((key, v) :: kvs))))
            end) pairs)
        (fun kvs => Ok (PyDict kvs))
  end.

(** [get_single_data]: [None] for a stream without a document. *)
Definition load_document
    (environ : gmap string string) (registry : gmap string custom_constructor)
    (content : string) : result pyval :=
  rbind (compose lib content) (fun root =>
    match root with
    | None => Ok PyNone
    | Some n => construct_object environ registry n
    end).

(** [yaml_parser.load]. *)
Definition yaml_parser_load (content : string) : py pyval :=
  modify (log_call (ParseYaml content)) ;;;
  w <- get_world ;;
  lift (load_document (environ w) (yaml_constructors w) content).

Definition empty_dict : pyval := PyDict [].

(** The four codec calls of the recovery path. *)
Definition reencode (content : string) : result string :=
  rbind (encode_utf8 lib content) (fun b =>
  rbind (decode_raw_unicode_escape lib b) (fun t =>
  rbind (encode_utf16_surrogatepass lib t) (fun b16 =>
  decode_utf16 lib b16))).

Definition read_yaml (content : string) : py pyval :=
  fix_yaml_loader ;;;
  replace_environment_variables ;;;
  try_except
    (x <- yaml_parser_load content ;; ret (py_or x empty_dict))
    (fun e =>
       match e with
       | ScannerError _ =>
           Some (content' <- lift (reencode content) ;;
                 x <- yaml_parser_load content' ;;
                 ret (py_or x empty_dict))
       | _ => None
       end).

(** [open(filename, encoding=encoding).read()]. *)
Definition open_read (filename encoding : string) : py string :=
  fun w =>
    match path_entry (files w) filename with
    | Raise e => (w, Raise e)
    | Ok Directory => (w, Raise (OSError EISDIR filename))
    | Ok Undecodable => (w, Raise (UnicodeError encoding))
    | Ok (RegularFile content) => (w, Ok content)
    end.

Definition read_file (filename encoding : string) : py string :=
  try_except (open_read filename encoding)
    (fun e =>
       match e with
       | OSError errno _ =>
           if Z.eqb errno ENOENT
           then Some (raise (ValueError (missing_file_error filename)))
           else None
       | _ => None
       end).

Definition read_config_file (filename : string) : py pyval :=
  text <- read_file filename "utf-8" ;;
  content <- read_yaml text ;;
  match content with
  | PyNone => ret empty_dict
  | _ =>
      if isinstance_dict content then ret content
      else raise (ValueError (invalid_config_error filename content))
  end.

Definition read_yaml_file (filename : string) : py pyval :=
  text <- read_file filename "utf-8" ;;
  read_yaml text.

Definition run_extractor
    (extractall : string -> string -> file_system -> file_system * option exn)
    (call : event) (byte_array directory : string) : py unit :=
  fun w =>
    let '(fs, raised) := extractall byte_array directory (files w) in
    let w' := log_call call (set_files fs w) in
    match raised with
    | None => (w', Ok tt)
    | Some e => (w', Raise e)
    end.

Definition unarchive (byte_array directory : string) : py string :=
  try_except
    (run_extractor (tar_extractall lib) (ExtractTar directory) byte_array directory ;;;
     ret directory)
    (fun e =>
       match e with
       | TarError _ =>
           Some (run_extractor (zip_extractall lib) (ExtractZip directory) byte_array directory ;;;
                 ret directory)
       | _ => None
       end).

Definition is_subdirectory (cwd : string) (path potential_parent_directory : option string) : bool :=
  match path, potential_parent_directory with
  | Some path, Some potential_parent_directory =>
      let path := abspath cwd path in
      let potential_parent_directory := abspath cwd potential_parent_directory in
      contains potential_parent_directory path
  | _, _ => false
  end.

Definition makedirs (name : string) : py unit :=
  fun w =>
    let '(fs, raised) := os_makedirs lib name (files w) in
    let w' := log_call (Makedirs name) (set_files fs w) in
    match raised with
    | None => (w', Ok tt)
    | Some e => (w', Raise e)
    end.

Definition create_directory_for_file (file_path : string) : py unit :=
  try_except (makedirs (dirname file_path))
    (fun e =>
       match e with
       | OSError errno _ => Some (if negb (Z.eqb errno EEXIST) then raise e else ret tt)
       | _ => None
       end).

End Io.

(** ** What [read_yaml] hands to the parser *)

(** The registry once [fix_yaml_loader] and [replace_environment_variables]
    have run. *)
Definition module_constructors (registry : gmap string custom_constructor)
  : gmap string custom_constructor :=
  <[env_var_tag := env_var_constructor_id]> (<[str_tag := construct_yaml_str]> registry).

(** The result of [yaml_parser.load(content)] inside [read_yaml], started in
    world [w]. *)
Definition yaml_load (lib : Library) (w : world) (content : string) : result pyval :=
  load_document lib (environ w) (module_constructors (yaml_constructors w)) content.

(** The world in which [read_yaml] calls the parser. *)
Definition registered (w : world) : world :=
  add_constructor env_var_tag env_var_constructor_id
    (add_constructor str_tag construct_yaml_str w).

(** ** What [read_file] returns *)

(** The result of [read_file(filename, encoding)] on the files [fs]: of the
    exceptions of [open], the one for [ENOENT] is replaced. *)
Definition read_text (fs : file_system) (filename encoding : string) : result string :=
  match path_entry fs filename with
  | Ok (RegularFile content) => Ok content
  | Ok Undecodable => Raise (UnicodeError encoding)
  | Ok Directory => Raise (OSError EISDIR filename)
  | Raise (OSError errno name) =>
      if Z.eqb errno ENOENT then Raise (ValueError (missing_file_error filename))
      else Raise (OSError errno name)
  | Raise e => Raise e
  end.

(** ** Classes of inputs the properties speak of *)

(** A placeholder [${name}]. *)
Definition placeholder (name : string) : string := "${" +:+ name +:+ "}".

(** The document [n] with every [!env_var] scalar [old] replaced by the
    string scalar [new]. *)
Fixpoint resolve_scalar (old new : string) (n : node) : node :=
  match n with
  | ScalarNode tag value =>
      if String.eqb tag env_var_tag && String.eqb value old
      then ScalarNode str_tag new
      else n
  | SequenceNode items => SequenceNode (map (resolve_scalar old new) items)
  | MappingNode pairs =>
      MappingNode
        (map (fun kv => (resolve_scalar old new (fst kv), resolve_scalar old new (snd kv))) pairs)
  end.

(** The scalar made of the placeholders of [names], a space between
    them. *)
Definition placeholders (names : list string) : string :=
  join " " (map placeholder names).

(** A character a YAML comment may hold: printable, and no line break. *)
Definition comment_char (c : ascii) : bool :=
  let n := ord c in
  Nat.eqb n 9 || between 32 126 n || between 160 255 n.

Fixpoint all_chars (p : ascii -> bool) (s : string) : bool :=
  match s with
  | EmptyString => true
  | String c rest => p c && all_chars p rest
  end.

(** A text without whitespace: [split] makes one word of it. *)
Definition no_space (s : string) : bool := all_chars (fun c => negb (isspace c)) s.

(** A name [expandvars] leaves in its braces: the environment does not set
    it; it holds no closing brace and no whitespace. *)
Definition unresolved (environ : gmap string string) (name : string) : bool :=
  match environ !! name with
  | None => negb (contains_char "}" name) && no_space name
  | Some _ => false
  end.

(** A line that is blank or a comment: spaces, then nothing or a hash sign
    and the comment's text. *)
Fixpoint comment_line (line : string) : bool :=
  match line with
  | EmptyString => true
  | String c rest =>
      if Ascii.eqb c " " then comment_line rest
      else Ascii.eqb c "#" && all_chars comment_char rest
  end.

(** A text with nothing but blank lines and comments. *)
Definition only_comments (content : string) : bool :=
  forallb comment_line (split_on (chr 10) EmptyString content).

(** Containment by path segments, the comparison the specification asks
    for: the components of the parent are the first components of the
    path. *)
Definition segments (p : string) : list string :=
  List.filter (fun c => negb (String.eqb c "")) (split_on sep EmptyString p).

Fixpoint segments_prefix (parent path : list string) : bool :=
  match parent, path with
  | [], _ => true
  | a :: parent', b :: path' => String.eqb a b && segments_prefix parent' path'
  | _ :: _, [] => false
  end.

Definition inside_by_segments (cwd path parent : string) : bool :=
  segments_prefix (segments (abspath cwd parent)) (segments (abspath cwd path)).

(** ** A sample of the libraries

    The libraries' results on the inputs of the examples below: the
    documents of [documents] as ruamel composes them, the standard scalars
    among them, the recovery path's codecs on those texts, two archives, and
    [os.makedirs] on a file system of plain paths. *)
Module Sample.

Definition bool_tag : string := "tag:yaml.org,2002:bool".
Definition int_tag : string := "tag:yaml.org,2002:int".

Definition nl : string := String (chr 10) EmptyString.

Definition scalar_document (tag value : string) : result (option node) :=
  Ok (Some (ScalarNode tag value)).

Definition pair_document (key tag value : string) : result (option node) :=
  Ok (Some (MappingNode [(ScalarNode str_tag key, ScalarNode tag value)])).

Definition documents : list (string * result (option node)) :=
  [ ("${FOO}", scalar_document env_var_tag "${FOO}");
    ("${MISSING}", scalar_document env_var_tag "${MISSING}");
    ("bar", scalar_document str_tag "bar");
    ("key: ${FOO}", pair_document "key" env_var_tag "${FOO}");
    ("key: ${MISSING}", pair_document "key" env_var_tag "${MISSING}");
    ("key: bar", pair_document "key" str_tag "bar");
    ("- a" +:+ nl +:+ "- b",
       Ok (Some (SequenceNode [ScalarNode str_tag "a"; ScalarNode str_tag "b"])));
    ("[]", Ok (Some (SequenceNode [])));
    ("false", scalar_document bool_tag "false");
    ("0", scalar_document int_tag "0");
    ("''", scalar_document str_tag "");
    ("k: 'x\u0027 ]", Raise (ScannerError "found unexpected end of stream"));
    ("k: 'x' ]", Raise (ParserError "expected <block end>, but found ']'"));
    ("k: 'x\u12", Raise (ScannerError "found unexpected end of stream")) ].

Fixpoint assoc {A : Type} (key : string) (table : list (string * A)) : option A :=
  match table with
  | [] => None
  | (k, a) :: rest => if String.eqb key k then Some a else assoc key rest
  end.

Definition compose_sample (content : string) : result (option node) :=
  if only_comments content then Ok None
  else match assoc content documents with
       | Some composed => composed
       | None => Raise (ParserError "a document outside the sample")
       end.

Definition construct_standard_sample (tag value : string) : result pyval :=
  if String.eqb tag bool_tag && String.eqb value "false" then Ok (PyBool false)
  else if String.eqb tag bool_tag && String.eqb value "true" then Ok (PyBool true)
  else if String.eqb tag int_tag && String.eqb value "0" then Ok (PyInt 0)
  else if String.eqb tag str_tag then Ok (PyStr value)
  else Raise (ConstructorError "a scalar outside the sample").

Definition decode_raw_sample (b : string) : result string :=
  if String.eqb b "k: 'x\u0027 ]" then Ok "k: 'x' ]"
  else if String.eqb b "k: 'x\u12" then Raise (UnicodeError "truncated \uXXXX escape")
  else Ok b.

(** An archive of one empty member, in either format. *)
Definition member (magic byte_array : string) : option string :=
  if String.prefix magic byte_array
  then Some (String.substring (String.length magic)
               (String.length byte_array - String.length magic) byte_array)
  else None.

Definition extract_member (directory name : string) (fs : file_system)
  : file_system * option exn :=
  match fs !! directory with
  | Some (RegularFile _) | Some Undecodable =>
      (fs, Some (OSError ENOTDIR (directory +:+ "/" +:+ name)))
  | _ => (<[directory +:+ "/" +:+ name := RegularFile ""]> (<[directory := Directory]> fs), None)
  end.

Definition tar_sample (byte_array directory : string) (fs : file_system)
  : file_system * option exn :=
  match member "ustar:" byte_array with
  | Some name => extract_member directory name fs
  | None => (fs, Some (TarError "file could not be opened successfully"))
  end.

Definition zip_sample (byte_array directory : string) (fs : file_system)
  : file_system * option exn :=
  match member "PK:" byte_array with
  | Some name => extract_member directory name fs
  | None => (fs, Some (BadZipFile "File is not a zip file"))
  end.

(** The missing directories from [name] upwards. *)
Fixpoint create_upwards (depth : nat) (name : string) (fs : file_system) : file_system :=
  match depth with
  | O => fs
  | S depth' =>
      if String.eqb name "" || all_sep name then fs
      else match fs !! name with
           | Some _ => fs
           | None => <[name := Directory]> (create_upwards depth' (dirname name) fs)
           end
  end.

Definition makedirs_sample (name : string) (fs : file_system) : file_system * option exn :=
  match fs !! name with
  | Some _ => (fs, Some (OSError EEXIST name))
  | None =>
      if String.eqb name "" then (fs, Some (OSError ENOENT name))
      else (<[name := Directory]> (create_upwards (String.length name) (dirname name) fs), None)
  end.

Definition library : Library := {|
  compose := compose_sample;
  construct_standard := construct_standard_sample;
  encode_utf8 := Ok;
  decode_raw_unicode_escape := decode_raw_sample;
  encode_utf16_surrogatepass := Ok;
  decode_utf16 := Ok;
  tar_extractall := tar_sample;
  zip_extractall := zip_sample;
  os_makedirs := makedirs_sample
|}.

(** A process with the given environment and files, nothing registered and
    no call made. *)
Definition process (env : gmap string string) (fs : file_system) : world :=
  World env fs ∅ [].

(** The process of the examples: [FOO=bar] is set, [MISSING] is not. *)
Definition foo_process : world := process {[ "FOO" := "bar" ]} ∅.

(** The same process with four files. *)
Definition sample_files : file_system :=
  {[ "list.yml" := RegularFile ("- a" +:+ nl +:+ "- b");
     "empty_list.yml" := RegularFile "[]";
     "comment.yml" := RegularFile "# nothing yet";
     "false.yml" := RegularFile "false" ]}.

Definition files_process : world := process {[ "FOO" := "bar" ]} sample_files.

(** A process with a directory of models, and one in which [models] is a
    regular file. *)
Definition models_process : world := process ∅ {[ "models" := Directory ]}.
Definition models_file_process : world := process ∅ {[ "models" := RegularFile "" ]}.

End Sample.

(** ** More of the module: JSON files, [create_path], the path validator *)

Section MoreIo.

Context (lib : Library).

(** [simplejson.loads], another library call. *)
Context (loads : string -> result pyval).

Definition failed_json_error (path reason : string) : string :=
  "Failed to read json from '" +:+ path +:+ "'. Error: " +:+ reason.

(** [read_json_file]: the file is read outside the [try]; inside it, a
    [ValueError] of the decoder (a [UnicodeError] is one too) is raised anew
    with the absolute path and the decoder's message. *)
Definition read_json_file (cwd filename : string) : py pyval :=
  content <- read_file filename "utf-8" ;;
  try_except (lift (loads content))
    (fun e =>
       match e with
       | ValueError reason | UnicodeError reason =>
           Some (raise (ValueError (failed_json_error (abspath cwd filename) reason)))
       | _ => None
       end).

(** [os.path.exists]. *)
Definition path_exists (fs : file_system) (path : string) : bool :=
  match fs !! path with
  | Some _ => true
  | None => false
  end.

(** [create_path]: the directory of the absolute path is made unless it
    exists. *)
Definition create_path (cwd file_path : string) : py unit :=
  let parent_dir := dirname (abspath cwd file_path) in
  w <- get_world ;;
  if negb (path_exists (files w) parent_dir) then makedirs lib parent_dir else ret tt.

End MoreIo.

(** What [ExportPathValidator.validate] does with a document: it returns, or
    raises a [ValidationError] with the message given. *)
Inductive validation : Type :=
| Accepted
| ValidationError (message : string).

(** [s.endswith(suffix)]: [suffix] is [s] from some position on. *)
Fixpoint endswith (s suffix : string) : bool :=
  String.eqb s suffix ||
  match s with
  | EmptyString => false
  | String _ rest => endswith rest suffix
  end.

(** [questionary_file_path_validator(valid_file_types, error_message)]: the
    [validate] method of the class it returns, on [document.text]. *)
Definition validate (valid_file_types : list string) (error_message : string)
    (text : option string) : validation :=
  let is_valid :=
    match text with
    | None => false
    | Some path => existsb (fun file_type => endswith path file_type) valid_file_types
    end in
  if negb is_valid then ValidationError error_message else Accepted.

(** The tags of the scalars of a document. *)
Fixpoint scalar_tags (n : node) : list string :=
  match n with
  | ScalarNode tag _ => [tag]
  | SequenceNode items => flat_map scalar_tags items
  | MappingNode pairs => flat_map (fun kv => (scalar_tags (fst kv) ++ scalar_tags (snd kv))%list) pairs
  end.

(** Whether a document holds, at any depth, the scalar of this tag and
    text. *)
Fixpoint holds_scalar (tag value : string) (n : node) : bool :=
  match n with
  | ScalarNode tag' value' => String.eqb tag' tag && String.eqb value' value
  | SequenceNode items => existsb (holds_scalar tag value) items
  | MappingNode pairs =>
      existsb (fun kv => holds_scalar tag value (fst kv) || holds_scalar tag value (snd kv)) pairs
  end.

(** A component of a normal path: not empty, no dot or dot-dot, no
    separator in it. *)
Definition clean_comp (comp : string) : bool :=
  negb (String.eqb comp "") && negb (String.eqb comp ".") && negb (String.eqb comp "..")
  && negb (contains_char sep comp).

(** A JSON decoder's results on two texts: an empty object, and a text
    whose first character starts no JSON value. *)
Definition loads_sample (content : string) : result pyval :=
  if String.eqb content "{}" then Ok (PyDict [])
  else if String.eqb content "not json"
       then Raise (ValueError "Expecting value: line 1 column 1 (char 0)")
       else Raise (ValueError "a text outside the sample").

(** The sample library with one more document: a quoted scalar that never
    ends, in a text the codecs of the recovery path leave as it is. *)
Definition library_with_open_quote : Library := {|
  compose := fun content =>
    if String.eqb content "k: 'x"
    then Raise (ScannerError "found unexpected end of stream")
    else Sample.compose_sample content;
  construct_standard := Sample.construct_standard_sample;
  encode_utf8 := Ok;
  decode_raw_unicode_escape := Sample.decode_raw_sample;
  encode_utf16_surrogatepass := Ok;
  decode_utf16 := Ok;
  tar_extractall := Sample.tar_sample;
  zip_extractall := Sample.zip_sample;
  os_makedirs := Sample.makedirs_sample
|}.

(** The sample library with documents that hold placeholders in quotes,
    where the resolver is not asked for a tag and the scalar is a string,
    and plain scalars of several words, which the resolver's pattern
    matches. *)
Definition placeholder_documents : list (string * result (option node)) :=
  [ ("k: '${FOO}'", Sample.pair_document "k" str_tag "${FOO}");
    ("'${FOO}'", Sample.scalar_document str_tag "${FOO}");
    ("${MISSING} ${USER}", Sample.scalar_document env_var_tag "${MISSING} ${USER}");
    ("key: ${MISSING} ${USER}", Sample.pair_document "key" env_var_tag "${MISSING} ${USER}");
    ("${MISSING} and ${FOO} $HOME",
       Sample.scalar_document env_var_tag "${MISSING} and ${FOO} $HOME") ].

Definition library_with_placeholders : Library := {|
  compose := fun content =>
    match Sample.assoc content placeholder_documents with
    | Some composed => composed
    | None => Sample.compose_sample content
    end;
  construct_standard := Sample.construct_standard_sample;
  encode_utf8 := Ok;
  decode_raw_unicode_escape := Sample.decode_raw_sample;
  encode_utf16_surrogatepass := Ok;
  decode_utf16 := Ok;
  tar_extractall := Sample.tar_sample;
  zip_extractall := Sample.zip_sample;
  os_makedirs := Sample.makedirs_sample
|}.

(** A process with a file that holds one plain scalar, a directory, and a
    JSON file the sample decoder rejects. *)
Definition scalar_process : world :=
  Sample.process ∅
    {[ "name.yml" := RegularFile "bar";
       "models" := Directory;
       "empty.json" := RegularFile "{}";
       "broken.json" := RegularFile "not json" ]}.

(** ** Paths that name nothing *)




(** ** Writing a YAML file *)

Section WriteIo.

(** [open(filename, "w", encoding="utf-8")]: the exception it raises, if
    any; when it raises none, the file exists and is empty. *)
Context (open_for_writing : string -> file_system -> option exn).

(** [yaml.dump(data, outfile, default_flow_style=False)]: the text it has
    written to the stream, and the exception that ended it, if any. *)
Context (dump : pyval -> string * option exn).

(** [write_yaml_file]: the file is opened, and so emptied, before the data
    is serialized; leaving the [with] block closes it with what was
    written. *)
Definition write_yaml_file (data : pyval) (filename : string) : py unit :=
  fun w =>
    match open_for_writing filename (files w) with
    | Some e => (w, Raise e)
    | None =>
        let '(written, raised) := dump data in
        let w' := set_files (<[filename := RegularFile written]> (files w)) w in
        match raised with
        | None => (w', Ok tt)
        | Some e => (w', Raise e)
        end
    end.

End WriteIo.

(** A file can be opened for writing unless it is a directory; and the
    serializer's text for one mapping and for the empty list (other values
    are outside the sample). *)
Definition open_sample (filename : string) (fs : file_system) : option exn :=
  match fs !! filename with
  | Some Directory => Some (OSError EISDIR filename)
  | _ => None
  end.

Definition dump_sample (data : pyval) : string * option exn :=
  match data with
  | PyDict [(PyStr "key", PyStr "bar")] => ("key: bar" +:+ Sample.nl, None)
  | PyList [] => ("[]" +:+ Sample.nl, None)
  | _ => ("", Some (ValueError "a value outside the sample"))
  end.

(** * Properties *)

(** ** Running the monad *)

Section Runs.

Context (lib : Library).

Lemma read_yaml_unfold (content : string) (w : world) :
  read_yaml lib content w =
  let w1 := log_call (ParseYaml content) (registered w) in
  match yaml_load lib w content with
  | Ok x => (w1, Ok (py_or x empty_dict))
  | Raise (ScannerError problem) =>
      match reencode lib content with
      | Ok content' =>
          (log_call (ParseYaml content') w1,
           match yaml_load lib w content' with
           | Ok x => Ok (py_or x empty_dict)
           | Raise e => Raise e
           end)
      | Raise e => (w1, Raise e)
      end
  | Raise e => (w1, Raise e)
  end.
Proof.
  unfold read_yaml, yaml_load, module_constructors, registered,
    fix_yaml_loader, replace_environment_variables, yaml_parser_load,
    try_except, bind, modify, get_world, lift, ret.
  cbn.
  destruct (load_document lib _ _ content) as [x | e]; [reflexivity |].
  destruct e; try reflexivity.
  destruct (reencode lib content) as [content' | e']; [| reflexivity].
  cbn.
  destruct (load_document lib _ _ content') as [x' | e'']; reflexivity.
Qed.

End Runs.

(** ** Text lemmas *)

#[local] Arguments String.append !s1 s2 : simpl nomatch.

Lemma append_empty_r (s : string) : s +:+ "" = s.
Proof. induction s as [| c s IH]; simpl; [reflexivity | now f_equal]. Qed.

Lemma append_assoc (a b c : string) : (a +:+ b) +:+ c = a +:+ (b +:+ c).
Proof. induction a as [| x a IH]; simpl; [reflexivity | now f_equal]. Qed.

Lemma contains_char_app (c : ascii) (a b : string) :
  contains_char c (a +:+ b) = contains_char c a || contains_char c b.
Proof.
  induction a as [| x a IH]; simpl; [reflexivity |].
  rewrite IH. now rewrite orb_assoc.
Qed.

Lemma prefix_spec (sub s : string) :
  String.prefix sub s = true <-> exists rest, s = sub +:+ rest.
Proof.
  revert s. induction sub as [| c sub IH]; intros s.
  - split; [intros _; now exists s | intros _; now destruct s].
  - destruct s as [| d s]; simpl.
    + split; [discriminate | intros [rest H]; discriminate].
    + destruct (ascii_dec c d) as [-> | Hne].
      * rewrite IH. split; intros [rest H]; exists rest; [now rewrite H | now injection H].
      * split; [discriminate | intros [rest H]; injection H; intros; congruence].
Qed.

Lemma contains_spec (sub s : string) :
  contains sub s = true <-> exists before rest, s = before +:+ sub +:+ rest.
Proof.
  induction s as [| c s IH].
  - cbn [contains]. rewrite orb_false_r, prefix_spec. split.
    + intros [rest H]. now exists "", rest.
    + intros (before & rest & H). destruct before; simpl in H.
      * now exists rest.
      * discriminate.
  - cbn [contains]. rewrite orb_true_iff, prefix_spec, IH. split.
    + intros [[rest H] | (before & rest & H)].
      * now exists "", rest.
      * exists (String c before), rest. simpl. now rewrite H.
    + intros (before & rest & H). destruct before as [| d before]; simpl in H.
      * left. now exists rest.
      * right. injection H as _ H. now exists before, rest.
Qed.

(** ** [expandvars] on one placeholder *)

Lemma span_brace_closed (name tail : string) :
  contains_char "}" name = false ->
  span_brace (name +:+ String "}" tail) = Some (name, tail).
Proof.
  induction name as [| c name IH]; intros H.
  - reflexivity.
  - cbn [contains_char] in H. apply orb_false_elim in H as [Hc Hname].
    rewrite Ascii.eqb_sym in Hc.
    change (span_brace (String c (name +:+ String "}" tail)) = Some (String c name, tail)).
    cbn [span_brace]. rewrite Hc, (IH Hname). reflexivity.
Qed.

Lemma search_var_placeholder (name : string) :
  contains_char "}" name = false ->
  search_var (placeholder name) = Some (VarMatch "" (placeholder name) name "").
Proof.
  intros H. unfold placeholder. cbn.
  replace (is_word_char "{") with false by reflexivity.
  rewrite (span_brace_closed name "" H). reflexivity.
Qed.

Lemma expand_loop_empty (turns : nat) (environ : gmap string string) :
  expand_loop turns environ "" = "".
Proof. destruct turns; reflexivity. Qed.

Lemma expandvars_set (environ : gmap string string) (name value : string) :
  contains_char "}" name = false ->
  environ !! name = Some value ->
  expandvars environ (placeholder name) = value.
Proof.
  intros Hname Hvalue. unfold expandvars.
  change (String.length (placeholder name)) with (S (String.length ("{" +:+ name +:+ "}"))).
  cbn [expand_loop]. rewrite (search_var_placeholder name Hname). cbn [vm_name vm_before vm_tail].
  rewrite Hvalue, expand_loop_empty. simpl. apply append_empty_r.
Qed.

Lemma expandvars_unset (environ : gmap string string) (name : string) :
  contains_char "}" name = false ->
  environ !! name = None ->
  expandvars environ (placeholder name) = placeholder name.
Proof.
  intros Hname Hvalue. unfold expandvars.
  change (String.length (placeholder name)) with (S (String.length ("{" +:+ name +:+ "}"))).
  cbn [expand_loop]. rewrite (search_var_placeholder name Hname).
  cbn [vm_name vm_before vm_tail vm_matched].
  rewrite Hvalue, expand_loop_empty. simpl. now rewrite append_empty_r.
Qed.

(** ** The loop of [expandvars] ends within the turns it is given *)

Lemma span_word_tail (s : string) :
  String.length (snd (span_word s)) <= String.length s.
Proof.
  induction s as [| c s IH]; cbn [span_word]; [reflexivity |].
  destruct (is_word_char c); [| reflexivity].
  destruct (span_word s) as [w tail]. cbn in *. lia.
Qed.

Lemma span_brace_tail (s inner tail : string) :
  span_brace s = Some (inner, tail) -> String.length tail < String.length s.
Proof.
  revert inner tail. induction s as [| c s IH]; intros inner tail; cbn [span_brace].
  - discriminate.
  - destruct (Ascii.eqb c "}").
    + intros [= <- <-]. cbn. lia.
    + destruct (span_brace s) as [[inner' tail'] |]; [| discriminate].
      intros [= <- <-]. specialize (IH _ _ eq_refl). cbn. lia.
Qed.

Lemma match_group_tail (s group name tail : string) :
  match_group s = Some (group, name, tail) -> String.length tail <= String.length s.
Proof.
  destruct s as [| c rest]; cbn [match_group]; [discriminate |].
  destruct (is_word_char c).
  - pose proof (span_word_tail (String c rest)) as H.
    destruct (span_word (String c rest)) as [w t]. intros [= <- <- <-]. exact H.
  - destruct (Ascii.eqb c "{"); [| discriminate].
    destruct (span_brace rest) as [[inner t] |] eqn:E; [| discriminate].
    intros [= <- <- <-]. apply span_brace_tail in E. cbn. lia.
Qed.

Lemma search_var_tail (s : string) (m : var_match) :
  search_var s = Some m -> String.length (vm_tail m) < String.length s.
Proof.
  revert m. induction s as [| c s IH]; intros m; cbn [search_var]; [discriminate |].
  assert (Hskip : match search_var s with
                  | Some m' => Some (VarMatch (String c (vm_before m')) (vm_matched m')
                                       (vm_name m') (vm_tail m'))
                  | None => None
                  end = Some m -> String.length (vm_tail m) < String.length (String c s)).
  { destruct (search_var s) as [m' |]; [| discriminate].
    intros [= <-]. specialize (IH m' eq_refl). cbn in *. lia. }
  destruct (Ascii.eqb c "$"); [| exact Hskip].
  destruct (match_group s) as [[[group name] tail] |] eqn:E; [| exact Hskip].
  intros [= <-]. apply match_group_tail in E. cbn. lia.
Qed.

(** Any number of turns from the length of the path on gives the result
    of [expandvars]. *)
Lemma expand_loop_enough (environ : gmap string string) (turns : nat) (path : string) :
  String.length path <= turns ->
  expand_loop turns environ path = expandvars environ path.
Proof.
  unfold expandvars.
  assert (H : forall t1 t2 p,
             String.length p <= t1 -> String.length p <= t2 ->
             expand_loop t1 environ p = expand_loop t2 environ p).
  { induction t1 as [| t1 IH]; intros t2 p H1 H2.
    - destruct p; [| cbn in H1; lia]. now rewrite !expand_loop_empty.
    - destruct t2 as [| t2].
      + destruct p; [| cbn in H2; lia]. now rewrite !expand_loop_empty.
      + cbn [expand_loop]. destruct (search_var p) as [m |] eqn:E; [| reflexivity].
        apply search_var_tail in E.
        rewrite (IH t2 (vm_tail m)) by lia. reflexivity. }
  intros Hturns. now apply H.
Qed.

(** ** The resolver's pattern holds of every one-line placeholder *)

Lemma split_on_absent (c : ascii) (piece s : string) :
  contains_char c s = false -> split_on c piece s = [piece +:+ s].
Proof.
  revert piece. induction s as [| d s IH]; intros piece H.
  - now rewrite append_empty_r.
  - cbn [contains_char] in H. apply orb_false_elim in H as [Hd Hs].
    cbn [split_on]. rewrite Ascii.eqb_sym in Hd. rewrite Hd, (IH _ Hs).
    now rewrite append_assoc.
Qed.

Lemma env_var_pattern_placeholder (name : string) :
  contains_char (chr 10) name = false ->
  env_var_pattern (placeholder name) = true.
Proof.
  intros Hname. unfold env_var_pattern.
  rewrite (split_on_absent (chr 10) "" (placeholder name)).
  - unfold placeholder. cbn. rewrite contains_char_app. cbn. apply orb_true_r.
  - unfold placeholder. cbn. rewrite contains_char_app, Hname. reflexivity.
Qed.

(** ** The constructor on one placeholder *)

Lemma env_var_constructor_set (environ : gmap string string) (name value : string) :
  contains_char "}" name = false ->
  environ !! name = Some value ->
  contains_char "$" value = false ->
  env_var_constructor environ (placeholder name) = Ok (PyStr value).
Proof.
  intros Hname Hvalue Hdollar. unfold env_var_constructor.
  rewrite (expandvars_set environ name value Hname Hvalue), Hdollar. reflexivity.
Qed.

Lemma env_var_constructor_unset (environ : gmap string string) (name : string) :
  contains_char "}" name = false ->
  environ !! name = None ->
  env_var_constructor environ (placeholder name) =
  Raise (ValueError
    (expansion_error (placeholder name)
       (List.filter (contains_char "$") (py_split (placeholder name))))).
Proof.
  intros Hname Hvalue. unfold env_var_constructor.
  rewrite (expandvars_unset environ name Hname Hvalue). reflexivity.
Qed.

Lemma split_ws_one_word (word s : string) :
  no_space s = true ->
  word +:+ s <> "" ->
  split_ws word s = [word +:+ s].
Proof.
  revert word. induction s as [| c s IH]; intros word Hs Hne.
  - rewrite append_empty_r in *. destruct word; [congruence | reflexivity].
  - cbn [no_space all_chars] in Hs. apply andb_prop in Hs as [Hc Hs].
    cbn [split_ws]. apply negb_true_iff in Hc. rewrite Hc.
    rewrite (IH (word +:+ String c "") Hs).
    + now rewrite append_assoc.
    + rewrite append_assoc. simpl. destruct word; discriminate.
Qed.

Lemma py_split_placeholder (name : string) :
  no_space name = true ->
  List.filter (contains_char "$") (py_split (placeholder name)) = [placeholder name].
Proof.
  intros Hname. unfold py_split.
  rewrite (split_ws_one_word "" (placeholder name)).
  - reflexivity.
  - unfold placeholder, no_space. simpl.
    replace (negb (isspace "$")) with true by reflexivity.
    replace (negb (isspace "{")) with true by reflexivity.
    simpl. clear -Hname. induction name as [| c name IH]; [reflexivity |].
    cbn [no_space all_chars] in Hname. apply andb_prop in Hname as [Hc Hs].
    simpl. rewrite Hc. now apply IH.
  - discriminate.
Qed.

(** ** A resolved placeholder is the string it stands for *)

Section Construction.

Context (lib : Library).
Context (environ : gmap string string) (registry : gmap string custom_constructor).
Hypothesis env_var_registered : registry !! env_var_tag = Some env_var_constructor_id.
Hypothesis str_registered : registry !! str_tag = Some construct_yaml_str.

Lemma construct_resolved (old new : string) (n : node) :
  env_var_constructor environ old = Ok (PyStr new) ->
  construct_object lib environ registry (resolve_scalar old new n) =
  construct_object lib environ registry n.
Proof.
  intros Hold. induction n as [tag value | items IH | pairs IH] using node_induction.
  - cbn [resolve_scalar].
    destruct (String.eqb tag env_var_tag && String.eqb value old) eqn:E; [| reflexivity].
    apply andb_prop in E as [Htag Hvalue].
    apply String.eqb_eq in Htag, Hvalue. subst tag value.
    cbn [construct_object]. unfold construct_scalar.
    now rewrite env_var_registered, str_registered, Hold.
  - cbn [resolve_scalar construct_object]. f_equal.
    induction IH as [| x l Hx _ IHl]; [reflexivity |].
    cbn [map]. now rewrite Hx, IHl.
  - cbn [resolve_scalar construct_object]. f_equal.
    induction IH as [| [k x] l [Hk Hx] _ IHl]; [reflexivity |].
    cbn [map fst snd] in *. now rewrite Hk, Hx, IHl.
Qed.

Lemma construct_env_var_scalar (value : string) :
  construct_object lib environ registry (ScalarNode env_var_tag value) =
  env_var_constructor environ value.
Proof. cbn. unfold construct_scalar. now rewrite env_var_registered. Qed.

Lemma construct_str_scalar (value : string) :
  construct_object lib environ registry (ScalarNode str_tag value) = Ok (PyStr value).
Proof. cbn. unfold construct_scalar. now rewrite str_registered. Qed.

End Construction.

Lemma module_constructors_env_var (registry : gmap string custom_constructor) :
  module_constructors registry !! env_var_tag = Some env_var_constructor_id.
Proof. unfold module_constructors. apply lookup_insert_eq. Qed.

Lemma module_constructors_str (registry : gmap string custom_constructor) :
  module_constructors registry !! str_tag = Some construct_yaml_str.
Proof.
  unfold module_constructors.
  rewrite lookup_insert_ne by discriminate. apply lookup_insert_eq.
Qed.

(** ** Outcomes of [read_yaml] *)

Section Outcomes.

Context (lib : Library).

Lemma read_yaml_loaded (w : world) (content : string) (x : pyval) :
  yaml_load lib w content = Ok x ->
  outcome (read_yaml lib content) w = Ok (py_or x empty_dict).
Proof. intros H. unfold outcome. rewrite read_yaml_unfold, H. reflexivity. Qed.

Lemma read_yaml_raised (w : world) (content : string) (e : exn) :
  yaml_load lib w content = Raise e ->
  (forall problem, e <> ScannerError problem) ->
  outcome (read_yaml lib content) w = Raise e.
Proof.
  intros H Hne. unfold outcome. rewrite read_yaml_unfold, H.
  destruct e; try reflexivity. now destruct (Hne problem).
Qed.

Lemma yaml_load_composed (w : world) (content : string) (n : node) :
  compose lib content = Ok (Some n) ->
  yaml_load lib w content =
  construct_object lib (environ w) (module_constructors (yaml_constructors w)) n.
Proof. intros H. unfold yaml_load, load_document. now rewrite H. Qed.

Lemma yaml_load_empty_stream (w : world) (content : string) :
  compose lib content = Ok None -> yaml_load lib w content = Ok PyNone.
Proof. intros H. unfold yaml_load, load_document. now rewrite H. Qed.

Lemma truthy_str (s : string) : s <> "" -> truthy (PyStr s) = true.
Proof. intros H. cbn. apply negb_true_iff. now apply String.eqb_neq. Qed.

End Outcomes.

(** C2 (as amended): when the first parse raises a scanner error, the text
    is re-encoded and parsed exactly once more, the transcoded text being
    the one parsed; the call then ends as the re-encoding and that second
    parse end, so a failure of either is the error the caller sees. *)
Theorem read_yaml_recovery (lib : Library) (w : world) (content problem : string) :
  yaml_load lib w content = Raise (ScannerError problem) ->
  calls (after (read_yaml lib content) w) =
    (calls w ++ ParseYaml content ::
       match reencode lib content with
       | Ok content' => [ParseYaml content']
       | Raise _ => []
       end)%list
  /\ outcome (read_yaml lib content) w =
     match reencode lib content with
     | Ok content' =>
         match yaml_load lib w content' with
         | Ok x => Ok (py_or x empty_dict)
         | Raise e => Raise e
         end
     | Raise e => Raise e
     end.
Proof.
  intros Hscan. unfold after, outcome. rewrite read_yaml_unfold, Hscan. cbn zeta.
  destruct (reencode lib content) as [content' | e]; cbn.
  - split; [| reflexivity]. now rewrite <- app_assoc.
  - split; reflexivity.
Qed.

(** The C2 theorem on the sample: the quote that the escape stands for ends
    the scalar in the transcoded text, and the second parse fails on what
    follows. *)
Lemma read_yaml_recovery_witness :
  calls (after (read_yaml Sample.library "k: 'x\u0027 ]") Sample.foo_process) =
    [ParseYaml "k: 'x\u0027 ]"; ParseYaml "k: 'x' ]"]
  /\ outcome (read_yaml Sample.library "k: 'x\u0027 ]") Sample.foo_process =
     Raise (ParserError "expected <block end>, but found ']'").
Proof.
  exact (read_yaml_recovery Sample.library Sample.foo_process "k: 'x\u0027 ]"
           "found unexpected end of stream" eq_refl).
Defined.

(** C2 as stated fails: the first parse raises a scanner error, and the
    caller sees the parser error of the retry; on a truncated escape the
    caller sees the codec's error, and no second parse is made. *)
Lemma read_yaml_recovery_counterexample :
  yaml_load Sample.library Sample.foo_process "k: 'x\u0027 ]" =
    Raise (ScannerError "found unexpected end of stream")
  /\ outcome (read_yaml Sample.library "k: 'x\u0027 ]") Sample.foo_process =
     Raise (ParserError "expected <block end>, but found ']'")
  /\ yaml_load Sample.library Sample.foo_process "k: 'x\u12" =
     Raise (ScannerError "found unexpected end of stream")
  /\ outcome (read_yaml Sample.library "k: 'x\u12") Sample.foo_process =
     Raise (UnicodeError "truncated \uXXXX escape")
  /\ calls (after (read_yaml Sample.library "k: 'x\u12") Sample.foo_process) =
     [ParseYaml "k: 'x\u12"].
Proof. repeat split; reflexivity. Qed.

(** ** Reading files *)

Lemma read_file_unfold (filename encoding : string) (w : world) :
  read_file filename encoding w = (w, read_text (files w) filename encoding).
Proof.
  unfold read_file, try_except, open_read, raise, read_text.
  destruct (path_entry (files w) filename) as [[content | |] | e]; try reflexivity.
  destruct e; try reflexivity.
  destruct (Z.eqb errno ENOENT); reflexivity.
Qed.

(** A path that is a key is read as its entry says. *)
Lemma read_text_regular (fs : file_system) (filename encoding content : string) :
  fs !! filename = Some (RegularFile content) ->
  read_text fs filename encoding = Ok content.
Proof. intros H. unfold read_text, path_entry. now rewrite H. Qed.

Lemma read_text_directory (fs : file_system) (filename encoding : string) :
  fs !! filename = Some Directory ->
  read_text fs filename encoding = Raise (OSError EISDIR filename).
Proof. intros H. unfold read_text, path_entry. now rewrite H. Qed.

Lemma read_text_undecodable (fs : file_system) (filename encoding : string) :
  fs !! filename = Some Undecodable ->
  read_text fs filename encoding = Raise (UnicodeError encoding).
Proof. intros H. unfold read_text, path_entry. now rewrite H. Qed.

(** The one exception of [open] that [read_file] replaces. *)
Lemma read_text_not_found (w : world) (filename encoding : string) :
  open_read filename encoding w = (w, Raise (OSError ENOENT filename)) ->
  read_text (files w) filename encoding = Raise (ValueError (missing_file_error filename)).
Proof.
  unfold open_read, read_text.
  destruct (path_entry (files w) filename) as [[content | |] | e]; try discriminate.
  intros [= ->]. reflexivity.
Qed.


Section Files.

Context (lib : Library).

Lemma read_yaml_file_unfold (filename : string) (w : world) :
  read_yaml_file lib filename w =
  match read_text (files w) filename "utf-8" with
  | Ok content => read_yaml lib content w
  | Raise e => (w, Raise e)
  end.
Proof.
  unfold read_yaml_file, bind. rewrite read_file_unfold.
  destruct (read_text (files w) filename "utf-8"); reflexivity.
Qed.

Lemma read_config_file_unfold (filename : string) (w : world) :
  read_config_file lib filename w =
  match read_text (files w) filename "utf-8" with
  | Ok text =>
      match read_yaml lib text w with
      | (w', Ok content) =>
          (w', match content with
               | PyNone => Ok empty_dict
               | PyDict _ => Ok content
               | _ => Raise (ValueError (invalid_config_error filename content))
               end)
      | (w', Raise e) => (w', Raise e)
      end
  | Raise e => (w, Raise e)
  end.
Proof.
  unfold read_config_file, bind. rewrite read_file_unfold.
  destruct (read_text (files w) filename "utf-8") as [text | e]; [| reflexivity].
  destruct (read_yaml lib text w) as [w' [content | e]]; [| reflexivity].
  destruct content; reflexivity.
Qed.

Lemma py_or_empty_dict (x : pyval) :
  truthy (py_or x empty_dict) = true \/ py_or x empty_dict = empty_dict.
Proof. unfold py_or. destruct (truthy x) eqn:E; [now left | now right]. Qed.

(** What [read_yaml] returns is true in a condition, or the empty dict. *)
Lemma read_yaml_returns (content : string) (w : world) (v : pyval) :
  outcome (read_yaml lib content) w = Ok v ->
  truthy v = true \/ v = empty_dict.
Proof.
  unfold outcome. rewrite read_yaml_unfold. cbn zeta.
  destruct (yaml_load lib w content) as [x | e].
  - cbn. intros [= <-]. apply py_or_empty_dict.
  - destruct e; cbn; try discriminate.
    destruct (reencode lib content) as [content' | e']; cbn; [| discriminate].
    destruct (yaml_load lib w content') as [x | e'']; [| discriminate].
    intros [= <-]. apply py_or_empty_dict.
Qed.

End Files.

(** C3: an empty text and a text of comments only load as the empty dict
    (the parser finds no document in them and returns [None]); whenever the
    parser returns [None] the result is the empty dict; and no call of
    [read_yaml] returns [None]. *)
Theorem read_yaml_never_none (lib : Library) :
  (forall content, only_comments content = true -> compose lib content = Ok None) ->
  (forall w content,
      only_comments content = true ->
      outcome (read_yaml lib content) w = Ok empty_dict)
  /\ (forall w content,
      yaml_load lib w content = Ok PyNone ->
      outcome (read_yaml lib content) w = Ok empty_dict)
  /\ (forall w content v,
      outcome (read_yaml lib content) w = Ok v -> v <> PyNone).
Proof.
  intros Hblank. repeat split.
  - intros w content Hcontent.
    apply (read_yaml_loaded lib w content PyNone).
    apply yaml_load_empty_stream. now apply Hblank.
  - intros w content Hnone. apply (read_yaml_loaded lib w content PyNone Hnone).
  - intros w content v Hv ->.
    destruct (read_yaml_returns lib content w PyNone Hv); discriminate.
Qed.

(** The C3 theorem on the sample: the empty text, and two lines of
    comments. *)
Lemma read_yaml_never_none_witness :
  outcome (read_yaml Sample.library "") Sample.foo_process = Ok empty_dict
  /\ outcome (read_yaml Sample.library ("# model configuration" +:+ Sample.nl +:+ "  # nothing yet"))
       Sample.foo_process = Ok empty_dict.
Proof.
  assert (Hblank : forall content,
             only_comments content = true -> compose Sample.library content = Ok None).
  { intros content H. cbn. unfold Sample.compose_sample. now rewrite H. }
  destruct (read_yaml_never_none Sample.library Hblank) as (Hcomments & _ & _).
  split; apply Hcomments; reflexivity.
Defined.

(** C6 (as amended): on a file whose document is a sequence with at least
    one item, [read_config_file] raises a [ValueError] whose message holds
    the path and the type found, and [read_yaml_file] returns the sequence;
    on a file whose document is [None] or any other value that is false in a
    condition, [read_config_file] returns the empty dict. *)
Theorem read_config_file_sequence (lib : Library) (w : world) (filename text : string) :
  files w !! filename = Some (RegularFile text) ->
  (forall x items,
      yaml_load lib w text = Ok (PyList (x :: items)) ->
      outcome (read_config_file lib filename) w =
        Raise (ValueError
          ("Tried to load invalid config file '" +:+ filename
           +:+ "'. Expected a key value mapping but found <class 'list'>."))
      /\ outcome (read_yaml_file lib filename) w = Ok (PyList (x :: items)))
  /\ (forall v,
      yaml_load lib w text = Ok v ->
      truthy v = false ->
      outcome (read_config_file lib filename) w = Ok empty_dict).
Proof.
  intros Hfile. unfold outcome.
  rewrite read_config_file_unfold, read_yaml_file_unfold.
  rewrite (read_text_regular _ _ _ _ Hfile), read_yaml_unfold.
  split.
  - intros x items Hload. rewrite Hload. split; reflexivity.
  - intros v Hload Hfalse. rewrite Hload. unfold py_or. rewrite Hfalse. reflexivity.
Qed.

(** The C6 theorem on the sample: a list of two items, and a file of one
    comment. *)
Lemma read_config_file_sequence_witness :
  (outcome (read_config_file Sample.library "list.yml") Sample.files_process =
     Raise (ValueError
       "Tried to load invalid config file 'list.yml'. Expected a key value mapping but found <class 'list'>.")
   /\ outcome (read_yaml_file Sample.library "list.yml") Sample.files_process =
      Ok (PyList [PyStr "a"; PyStr "b"]))
  /\ outcome (read_config_file Sample.library "comment.yml") Sample.files_process = Ok empty_dict.
Proof.
  split.
  - apply (read_config_file_sequence Sample.library Sample.files_process "list.yml"
             ("- a" +:+ Sample.nl +:+ "- b") eq_refl).
    reflexivity.
  - apply (read_config_file_sequence Sample.library Sample.files_process "comment.yml"
             "# nothing yet" eq_refl) with (v := PyNone); reflexivity.
Defined.

(** C6 as stated fails on the empty sequence: the document of the file is a
    sequence, yet [read_config_file] returns the empty dict, and so does
    [read_yaml_file]. *)
Lemma read_config_file_sequence_counterexample :
  Sample.sample_files !! "empty_list.yml" = Some (RegularFile "[]")
  /\ yaml_load Sample.library Sample.files_process "[]" = Ok (PyList [])
  /\ outcome (read_config_file Sample.library "empty_list.yml") Sample.files_process =
     Ok (PyDict [])
  /\ outcome (read_yaml_file Sample.library "empty_list.yml") Sample.files_process =
     Ok (PyDict []).
Proof. repeat split; reflexivity. Qed.

(** C10: whenever the parser returns a value that is false in a condition
    ([None], [False], [0], the empty string and the empty list are such
    values), [read_yaml] returns the empty dict; so [read_yaml_file] returns
    none of these five. *)
Theorem read_yaml_falsy (lib : Library) (w : world) :
  (forall content v,
      yaml_load lib w content = Ok v ->
      truthy v = false ->
      outcome (read_yaml lib content) w = Ok empty_dict)
  /\ (truthy PyNone = false /\ truthy (PyBool false) = false /\ truthy (PyInt 0) = false
      /\ truthy (PyStr "") = false /\ truthy (PyList []) = false)
  /\ (forall filename v,
      outcome (read_yaml_file lib filename) w = Ok v ->
      v <> PyNone /\ v <> PyBool false /\ v <> PyInt 0 /\ v <> PyStr "" /\ v <> PyList []).
Proof.
  split; [| split].
  - intros content v Hload Hfalse.
    rewrite (read_yaml_loaded lib w content v Hload). unfold py_or. now rewrite Hfalse.
  - repeat split; reflexivity.
  - intros filename v. unfold outcome. rewrite read_yaml_file_unfold.
    destruct (read_text (files w) filename "utf-8") as [content | e]; cbn; [| discriminate].
    intros Hv. destruct (read_yaml_returns lib content w v Hv) as [Htrue | ->].
    + repeat split; intros ->; discriminate.
    + repeat split; discriminate.
Qed.

(** The C10 theorem on the sample: the document [false]. *)
Lemma read_yaml_falsy_witness :
  outcome (read_yaml Sample.library "false") Sample.files_process = Ok empty_dict
  /\ outcome (read_yaml Sample.library "0") Sample.files_process = Ok empty_dict
  /\ outcome (read_yaml Sample.library "''") Sample.files_process = Ok empty_dict
  /\ outcome (read_yaml Sample.library "[]") Sample.files_process = Ok empty_dict.
Proof.
  destruct (read_yaml_falsy Sample.library Sample.files_process) as (Hfalsy & _ & _).
  split; [| split; [| split]].
  - apply (Hfalsy "false" (PyBool false)); reflexivity.
  - apply (Hfalsy "0" (PyInt 0)); reflexivity.
  - apply (Hfalsy "''" (PyStr "")); reflexivity.
  - apply (Hfalsy "[]" (PyList [])); reflexivity.
Defined.

(** ** Archives *)

Lemma unarchive_unfold (lib : Library) (byte_array directory : string) (w : world) :
  unarchive lib byte_array directory w =
  let tar := tar_extractall lib byte_array directory (files w) in
  let w1 := log_call (ExtractTar directory) (set_files (fst tar) w) in
  match snd tar with
  | None => (w1, Ok directory)
  | Some (TarError msg) =>
      let zip := zip_extractall lib byte_array directory (fst tar) in
      (log_call (ExtractZip directory) (set_files (fst zip) w1),
       match snd zip with
       | None => Ok directory
       | Some e => Raise e
       end)
  | Some e => (w1, Raise e)
  end.
Proof.
  unfold unarchive, try_except, bind, run_extractor, ret. cbn zeta.
  destruct (tar_extractall lib byte_array directory (files w)) as [fs1 [e |]]; cbn.
  - destruct e; try reflexivity.
    change (files (log_call (ExtractTar directory) (set_files fs1 w))) with fs1.
    destruct (zip_extractall lib byte_array directory fs1) as [fs2 [e |]]; reflexivity.
  - reflexivity.
Qed.

(** C7 (as amended): the byte array is first extracted as a tar archive; a
    zip extraction follows exactly when the tar attempt raised a
    [tarfile.TarError]; the directory is returned when the attempt made last
    succeeds; any other exception of the tar attempt, and any exception of
    the zip attempt, is what the caller sees. *)
Theorem unarchive_attempts (lib : Library) (w : world) (byte_array directory : string)
    (fs1 : file_system) (r1 : option exn) :
  tar_extractall lib byte_array directory (files w) = (fs1, r1) ->
  (r1 = None ->
     unarchive lib byte_array directory w =
     (log_call (ExtractTar directory) (set_files fs1 w), Ok directory))
  /\ (forall msg fs2 r2,
     r1 = Some (TarError msg) ->
     zip_extractall lib byte_array directory fs1 = (fs2, r2) ->
     calls (after (unarchive lib byte_array directory) w) =
       (calls w ++ [ExtractTar directory; ExtractZip directory])%list
     /\ files (after (unarchive lib byte_array directory) w) = fs2
     /\ outcome (unarchive lib byte_array directory) w =
        match r2 with
        | None => Ok directory
        | Some e => Raise e
        end)
  /\ (forall e,
     r1 = Some e ->
     (forall msg, e <> TarError msg) ->
     unarchive lib byte_array directory w =
     (log_call (ExtractTar directory) (set_files fs1 w), Raise e)).
Proof.
  intros Htar. unfold after, outcome. rewrite unarchive_unfold, Htar. cbn.
  split; [| split].
  - intros ->. reflexivity.
  - intros msg fs2 r2 -> Hzip. rewrite Hzip. cbn.
    split; [now rewrite <- app_assoc | split; reflexivity].
  - intros e -> Hne. destruct e; try reflexivity. now destruct (Hne msg).
Qed.

(** The C7 theorem on the sample: a zip archive, which the tar attempt
    rejects. *)
Lemma unarchive_attempts_witness :
  calls (after (unarchive Sample.library "PK:nlu.yml" "models") Sample.models_process) =
    [ExtractTar "models"; ExtractZip "models"]
  /\ files (after (unarchive Sample.library "PK:nlu.yml" "models") Sample.models_process) =
     <["models/nlu.yml" := RegularFile ""]> (<["models" := Directory]> {[ "models" := Directory ]})
  /\ outcome (unarchive Sample.library "PK:nlu.yml" "models") Sample.models_process = Ok "models".
Proof.
  destruct (unarchive_attempts Sample.library Sample.models_process "PK:nlu.yml" "models"
              _ _ eq_refl) as (_ & Hzip & _).
  apply (Hzip "file could not be opened successfully" _ _ eq_refl eq_refl).
Defined.

(** C7 as stated fails: the tar attempt fails (the target is a regular
    file), no zip attempt follows, and the caller sees the [OSError] of the
    tar attempt. *)
Lemma unarchive_attempts_counterexample :
  snd (tar_extractall Sample.library "ustar:nlu.yml" "models" (files Sample.models_file_process)) =
    Some (OSError ENOTDIR "models/nlu.yml")
  /\ calls (after (unarchive Sample.library "ustar:nlu.yml" "models") Sample.models_file_process) =
     [ExtractTar "models"]
  /\ outcome (unarchive Sample.library "ustar:nlu.yml" "models") Sample.models_file_process =
     Raise (OSError ENOTDIR "models/nlu.yml").
Proof. repeat split; reflexivity. Qed.

(** ** Directories *)

Lemma create_directory_for_file_unfold (lib : Library) (file_path : string) (w : world) :
  create_directory_for_file lib file_path w =
  let made := os_makedirs lib (dirname file_path) (files w) in
  let w' := log_call (Makedirs (dirname file_path)) (set_files (fst made) w) in
  match snd made with
  | None => (w', Ok tt)
  | Some (OSError errno filename) =>
      if Z.eqb errno EEXIST then (w', Ok tt) else (w', Raise (OSError errno filename))
  | Some e => (w', Raise e)
  end.
Proof.
  unfold create_directory_for_file, try_except, makedirs, raise, ret. cbn zeta.
  destruct (os_makedirs lib (dirname file_path) (files w)) as [fs [e |]]; cbn; [| reflexivity].
  destruct e; try reflexivity.
  destruct (Z.eqb errno EEXIST); reflexivity.
Qed.

(** What holds of the paths [os.makedirs] accepts.  For an [os.makedirs]
    that raises [FileExistsError] on a path that exists and changes nothing
    then, and after which (returned, or raised that error) the path exists:
    when the path [os.path.dirname] gives for the file path is a directory,
    [create_directory_for_file] returns without an exception and the files
    are as before; and after a call that returned, a second call returns too
    and leaves the files as the first call left them. *)
Theorem create_directory_for_file_idempotent (lib : Library) :
  (forall name fs,
      is_Some (fs !! name) ->
      exists filename, os_makedirs lib name fs = (fs, Some (OSError EEXIST filename))) ->
  (forall name fs fs' r,
      os_makedirs lib name fs = (fs', r) ->
      r = None \/ (exists filename, r = Some (OSError EEXIST filename)) ->
      is_Some (fs' !! name)) ->
  forall (w : world) (file_path : string),
    (files w !! dirname file_path = Some Directory ->
       outcome (create_directory_for_file lib file_path) w = Ok tt
       /\ files (after (create_directory_for_file lib file_path) w) = files w)
    /\ (outcome (create_directory_for_file lib file_path) w = Ok tt ->
       outcome (create_directory_for_file lib file_path)
         (after (create_directory_for_file lib file_path) w) = Ok tt
       /\ files (after (create_directory_for_file lib file_path)
                  (after (create_directory_for_file lib file_path) w)) =
          files (after (create_directory_for_file lib file_path) w)).
Proof.
  intros Hexists Hmade w file_path.
  assert (Hthere : forall w0,
             is_Some (files w0 !! dirname file_path) ->
             outcome (create_directory_for_file lib file_path) w0 = Ok tt
             /\ files (after (create_directory_for_file lib file_path) w0) = files w0).
  { intros w0 Hsome. unfold outcome, after.
    rewrite create_directory_for_file_unfold.
    destruct (Hexists _ _ Hsome) as [filename ->]. cbn. split; reflexivity. }
  split.
  - intros Hdir. apply Hthere. rewrite Hdir. now eexists.
  - intros Hfirst. apply Hthere.
    unfold outcome, after in *. rewrite create_directory_for_file_unfold in *.
    destruct (os_makedirs lib (dirname file_path) (files w)) as [fs r] eqn:Hcall.
    cbn in *.
    assert (Hr : r = None \/ (exists filename, r = Some (OSError EEXIST filename))).
    { destruct r as [e |]; [| now left].
      destruct e; try discriminate.
      destruct (Z.eqb errno EEXIST) eqn:E; [| discriminate].
      apply Z.eqb_eq in E. subst errno. right. now eexists. }
    pose proof (Hmade _ _ _ _ Hcall Hr) as Hsome.
    destruct Hr as [-> | [filename ->]]; exact Hsome.
Qed.

Lemma makedirs_sample_exists (name : string) (fs : file_system) :
  is_Some (fs !! name) ->
  exists filename, Sample.makedirs_sample name fs = (fs, Some (OSError EEXIST filename)).
Proof.
  intros [entry Hentry]. exists name. unfold Sample.makedirs_sample. now rewrite Hentry.
Qed.

Lemma makedirs_sample_made (name : string) (fs fs' : file_system) (r : option exn) :
  Sample.makedirs_sample name fs = (fs', r) ->
  r = None \/ (exists filename, r = Some (OSError EEXIST filename)) ->
  is_Some (fs' !! name).
Proof.
  unfold Sample.makedirs_sample. destruct (fs !! name) as [entry |] eqn:Hentry.
  - intros [= <- <-] _. rewrite Hentry. now eexists.
  - destruct (String.eqb name "").
    + intros [= <- <-] [Hr | [filename Hr]]; discriminate.
    + intros [= <- <-] _. rewrite lookup_insert_eq. now eexists.
Qed.

(** On the sample: the directory of the models exists; and a report's two
    missing directories are made by the first call. *)
Lemma create_directory_for_file_idempotent_witness :
  (outcome (create_directory_for_file Sample.library "models/nlu.yml") Sample.models_process = Ok tt
   /\ files (after (create_directory_for_file Sample.library "models/nlu.yml") Sample.models_process) =
      files Sample.models_process)
  /\ (outcome (create_directory_for_file Sample.library "out/run1/report.txt")
        (after (create_directory_for_file Sample.library "out/run1/report.txt")
           Sample.models_process) = Ok tt
      /\ files (after (create_directory_for_file Sample.library "out/run1/report.txt")
                  (after (create_directory_for_file Sample.library "out/run1/report.txt")
                     Sample.models_process)) =
         files (after (create_directory_for_file Sample.library "out/run1/report.txt")
                  Sample.models_process)).
Proof.
  split.
  - apply (create_directory_for_file_idempotent Sample.library
             makedirs_sample_exists makedirs_sample_made Sample.models_process "models/nlu.yml").
    reflexivity.
  - apply (create_directory_for_file_idempotent Sample.library
             makedirs_sample_exists makedirs_sample_made Sample.models_process
             "out/run1/report.txt").
    reflexivity.
Defined.

(** ** Subdirectories *)

(** C9: [is_subdirectory] answers whether the absolute parent path occurs
    somewhere in the absolute path, as a piece of text; so it answers yes
    for [/foo/barbaz] under [/foo/bar], and for [/data/foo/bar] under
    [/foo], though by segments neither path lies in the directory. *)
Theorem is_subdirectory_substring (cwd : string) :
  (forall path parent,
      is_subdirectory cwd (Some path) (Some parent) = true <->
      exists before rest, abspath cwd path = before +:+ abspath cwd parent +:+ rest)
  /\ is_subdirectory cwd (Some "/foo/barbaz") (Some "/foo/bar") = true
  /\ inside_by_segments cwd "/foo/barbaz" "/foo/bar" = false
  /\ is_subdirectory cwd (Some "/data/foo/bar") (Some "/foo") = true
  /\ inside_by_segments cwd "/data/foo/bar" "/foo" = false
  /\ inside_by_segments cwd "/foo/bar/baz" "/foo/bar" = true.
Proof.
  split; [| repeat split; reflexivity].
  intros path parent. unfold is_subdirectory. apply contains_spec.
Qed.

(** * Further properties *)

(** ** Expansion, piece by piece *)

Lemma span_word_split (s : string) :
  s = fst (span_word s) +:+ snd (span_word s).
Proof.
  induction s as [| c s IH]; cbn [span_word]; [reflexivity |].
  destruct (is_word_char c); [| reflexivity].
  destruct (span_word s) as [w tail]. cbn in *. now f_equal.
Qed.

Lemma span_brace_split (s inner tail : string) :
  span_brace s = Some (inner, tail) -> s = inner +:+ String "}" tail.
Proof.
  revert inner tail. induction s as [| c s IH]; intros inner tail; cbn [span_brace].
  - discriminate.
  - destruct (Ascii.eqb c "}") eqn:E.
    + intros [= <- <-]. apply Ascii.eqb_eq in E. now subst c.
    + destruct (span_brace s) as [[inner' tail'] |]; [| discriminate].
      intros [= <- <-]. cbn. f_equal. now apply IH.
Qed.

Lemma match_group_split (s group name tail : string) :
  match_group s = Some (group, name, tail) -> s = group +:+ tail.
Proof.
  destruct s as [| c rest]; cbn [match_group]; [discriminate |].
  destruct (is_word_char c).
  - pose proof (span_word_split (String c rest)) as H.
    destruct (span_word (String c rest)) as [w t]. intros [= <- <- <-]. exact H.
  - destruct (Ascii.eqb c "{") eqn:E; [| discriminate].
    destruct (span_brace rest) as [[inner t] |] eqn:Hb; [| discriminate].
    intros [= <- <- <-]. apply Ascii.eqb_eq in E. subst c.
    apply span_brace_split in Hb. subst rest. cbn. f_equal.
    rewrite append_assoc. reflexivity.
Qed.

Lemma search_var_split (s : string) (m : var_match) :
  search_var s = Some m -> s = vm_before m +:+ vm_matched m +:+ vm_tail m.
Proof.
  revert m. induction s as [| c s IH]; intros m; cbn [search_var]; [discriminate |].
  assert (Hskip : match search_var s with
                  | Some m' => Some (VarMatch (String c (vm_before m')) (vm_matched m')
                                       (vm_name m') (vm_tail m'))
                  | None => None
                  end = Some m ->
                  String c s = vm_before m +:+ vm_matched m +:+ vm_tail m).
  { destruct (search_var s) as [m' |]; [| discriminate].
    intros [= <-]. cbn. f_equal. now apply IH. }
  destruct (Ascii.eqb c "$") eqn:E; [| exact Hskip].
  destruct (match_group s) as [[[group name] tail] |] eqn:Hg; [| exact Hskip].
  intros [= <-]. apply match_group_split in Hg. cbn. now f_equal.
Qed.

Lemma search_var_no_dollar (s : string) :
  contains_char "$" s = false -> search_var s = None.
Proof.
  induction s as [| c s IH]; [reflexivity |].
  cbn [contains_char]. intros H. apply orb_false_elim in H as [Hc Hs].
  cbn [search_var]. rewrite Ascii.eqb_sym in Hc. rewrite Hc, (IH Hs). reflexivity.
Qed.

Lemma expand_loop_no_match (turns : nat) (environ : gmap string string) (path : string) :
  search_var path = None -> expand_loop turns environ path = path.
Proof. intros H. destruct turns; cbn [expand_loop]; [reflexivity | now rewrite H]. Qed.

Lemma expand_loop_no_variable (turns : nat) (path : string) :
  expand_loop turns ∅ path = path.
Proof.
  revert path. induction turns as [| turns IH]; intros path; cbn [expand_loop]; [reflexivity |].
  destruct (search_var path) as [m |] eqn:E; [| reflexivity].
  rewrite lookup_empty, IH. symmetry. now apply search_var_split.
Qed.

(** A text before the first dollar sign is stepped over. *)
Lemma search_var_literal (literal s : string) :
  contains_char "$" literal = false ->
  search_var (literal +:+ s) =
  match search_var s with
  | Some m => Some (VarMatch (literal +:+ vm_before m) (vm_matched m) (vm_name m) (vm_tail m))
  | None => None
  end.
Proof.
  induction literal as [| c literal IH]; intros H.
  - cbn. destruct (search_var s) as [[] |]; reflexivity.
  - cbn [contains_char] in H. apply orb_false_elim in H as [Hc Hl].
    rewrite Ascii.eqb_sym in Hc.
    change (String c literal +:+ s) with (String c (literal +:+ s)).
    cbn [search_var]. rewrite Hc, (IH Hl).
    destruct (search_var s) as [m |]; reflexivity.
Qed.

Lemma search_var_placeholder_then (name rest : string) :
  contains_char "}" name = false ->
  search_var (placeholder name +:+ rest) = Some (VarMatch "" (placeholder name) name rest).
Proof.
  intros H. unfold placeholder. cbn.
  replace (is_word_char "{") with false by reflexivity.
  rewrite append_assoc. cbn. rewrite (span_brace_closed name rest H). reflexivity.
Qed.

Lemma length_app (a b : string) :
  String.length (a +:+ b) = String.length a + String.length b.
Proof. induction a as [| c a IH]; cbn; [reflexivity | now rewrite IH]. Qed.

(** X1: in a process with no environment variable, [expandvars] returns
    every text as it is, so the constructor rejects every scalar that
    holds a dollar sign, quoting the scalar in its message. *)
Theorem env_var_constructor_empty_environment (value : string) :
  expandvars ∅ value = value
  /\ (contains_char "$" value = true ->
      env_var_constructor ∅ value =
      Raise (ValueError
        (expansion_error value (List.filter (contains_char "$") (py_split value))))).
Proof.
  assert (H : expandvars ∅ value = value) by apply expand_loop_no_variable.
  split; [exact H |].
  intros Hdollar. unfold env_var_constructor. now rewrite H, Hdollar.
Qed.

(** X1 on a path under the home directory. *)
Lemma env_var_constructor_empty_environment_witness :
  env_var_constructor ∅ "${HOME}/models $USER" =
  Raise (ValueError
    "Error when trying to expand the environment variables in '${HOME}/models $USER'. Please make sure to also set these environment variables: '['${HOME}/models', '$USER']'.").
Proof.
  apply (env_var_constructor_empty_environment "${HOME}/models $USER"). reflexivity.
Defined.

(** X2: a scalar without a dollar sign comes out of the constructor as the
    string it is, whatever the environment holds. *)
Theorem env_var_constructor_plain (environ : gmap string string) (value : string) :
  contains_char "$" value = false ->
  env_var_constructor environ value = Ok (PyStr value).
Proof.
  intros H. unfold env_var_constructor, expandvars.
  rewrite (expand_loop_no_match _ _ _ (search_var_no_dollar value H)), H. reflexivity.
Qed.

(** X2 on a braced text. *)
Lemma env_var_constructor_plain_witness :
  env_var_constructor {[ "FOO" := "bar" ]} "{FOO} and FOO" = Ok (PyStr "{FOO} and FOO").
Proof. apply env_var_constructor_plain. reflexivity. Defined.

(** X3: a variable whose value holds a dollar sign cannot be used: the
    value is put in and not expanded again, the dollar sign test then fails
    the scalar, and the message lists the words of the value, not the
    placeholder. *)
Theorem env_var_constructor_dollar_value
    (environ : gmap string string) (name value : string) :
  contains_char "}" name = false ->
  environ !! name = Some value ->
  contains_char "$" value = true ->
  expandvars environ (placeholder name) = value
  /\ env_var_constructor environ (placeholder name) =
     Raise (ValueError
       (expansion_error (placeholder name)
          (List.filter (contains_char "$") (py_split value)))).
Proof.
  intros Hname Hvalue Hdollar.
  pose proof (expandvars_set environ name value Hname Hvalue) as H.
  split; [exact H |].
  unfold env_var_constructor. now rewrite H, Hdollar.
Qed.

(** X3 on a password. *)
Lemma env_var_constructor_dollar_value_witness :
  expandvars {[ "PASSWORD" := "pa$$word"; "word" := "x" ]} "${PASSWORD}" = "pa$$word"
  /\ env_var_constructor {[ "PASSWORD" := "pa$$word"; "word" := "x" ]} "${PASSWORD}" =
     Raise (ValueError
       "Error when trying to expand the environment variables in '${PASSWORD}'. Please make sure to also set these environment variables: '['pa$$word']'.").
Proof.
  apply (env_var_constructor_dollar_value _ "PASSWORD" "pa$$word"); reflexivity.
Defined.

(** X4: expansion goes from left to right through a template: the text
    before a placeholder is kept, the placeholder becomes the variable's
    value (or stays, when the variable is not set), and the rest is expanded
    on its own. *)
Theorem expandvars_template (environ : gmap string string) (literal name rest : string) :
  contains_char "$" literal = false ->
  contains_char "}" name = false ->
  expandvars environ (literal +:+ placeholder name +:+ rest) =
  literal +:+ default (placeholder name) (environ !! name) +:+ expandvars environ rest.
Proof.
  intros Hliteral Hname.
  rewrite <- (expand_loop_enough environ
                (S (String.length (literal +:+ placeholder name +:+ rest)))) by lia.
  cbn [expand_loop].
  rewrite (search_var_literal literal _ Hliteral), (search_var_placeholder_then name rest Hname).
  cbn [vm_name vm_before vm_matched vm_tail].
  rewrite append_empty_r.
  rewrite (expand_loop_enough environ _ rest) by (rewrite !length_app; lia).
  destruct (environ !! name); reflexivity.
Qed.

(** X4 on a database address. *)
Lemma expandvars_template_witness :
  expandvars {[ "USER" := "rasa" ]} "postgres://${USER}:${PASS}@db" = "postgres://rasa:${PASS}@db".
Proof.
  rewrite (expandvars_template {[ "USER" := "rasa" ]} "postgres://" "USER" ":${PASS}@db" eq_refl eq_refl).
  reflexivity.
Defined.

(** ** Errors of the parse *)

(** X6: an exception of the first parse that is no scanner error (a parser
    error, the constructor's [ValueError]) reaches the caller as it is,
    after that one parse and no re-encoding. *)
Theorem read_yaml_other_error (lib : Library) (w : world) (content : string) (e : exn) :
  yaml_load lib w content = Raise e ->
  (forall problem, e <> ScannerError problem) ->
  read_yaml lib content w = (log_call (ParseYaml content) (registered w), Raise e).
Proof.
  intros Hload Hother. rewrite read_yaml_unfold, Hload. cbn zeta.
  destruct e; try reflexivity. now destruct (Hother problem).
Qed.

(** X6 on the sample: a closing bracket after a mapping's value. *)
Lemma read_yaml_other_error_witness :
  read_yaml Sample.library "k: 'x' ]" Sample.foo_process =
  (log_call (ParseYaml "k: 'x' ]") (registered Sample.foo_process),
   Raise (ParserError "expected <block end>, but found ']'")).
Proof.
  apply read_yaml_other_error; [reflexivity | discriminate].
Defined.

(** X7: when the re-encoding returns the text it was given, the recovery
    parses the same text a second time and the caller sees the scanner
    error of the first parse. *)
Theorem read_yaml_recovery_same_text (lib : Library) (w : world) (content problem : string) :
  yaml_load lib w content = Raise (ScannerError problem) ->
  reencode lib content = Ok content ->
  outcome (read_yaml lib content) w = Raise (ScannerError problem)
  /\ calls (after (read_yaml lib content) w) =
     (calls w ++ [ParseYaml content; ParseYaml content])%list.
Proof.
  intros Hload Hsame. unfold outcome, after.
  rewrite read_yaml_unfold, Hload. cbn zeta. rewrite Hsame, Hload. cbn.
  split; [reflexivity | now rewrite <- app_assoc].
Qed.

(** X7 on a quoted scalar that never ends. *)
Lemma read_yaml_recovery_same_text_witness :
  outcome (read_yaml library_with_open_quote "k: 'x") Sample.foo_process =
    Raise (ScannerError "found unexpected end of stream")
  /\ calls (after (read_yaml library_with_open_quote "k: 'x") Sample.foo_process) =
     [ParseYaml "k: 'x"; ParseYaml "k: 'x"].
Proof.
  apply (read_yaml_recovery_same_text library_with_open_quote Sample.foo_process "k: 'x"
           "found unexpected end of stream"); reflexivity.
Defined.

(** ** Documents that name no variable *)

Lemma construct_object_environment
    (lib : Library) (env1 env2 : gmap string string)
    (registry : gmap string custom_constructor) (n : node) :
  Forall (fun tag => registry !! tag <> Some env_var_constructor_id) (scalar_tags n) ->
  construct_object lib env1 registry n = construct_object lib env2 registry n.
Proof.
  induction n as [tag value | items IH | pairs IH] using node_induction; intros Htags.
  - cbn in *. apply Forall_inv in Htags. unfold construct_scalar.
    destruct (registry !! tag) as [[] |]; [reflexivity | congruence | reflexivity].
  - cbn [construct_object]. f_equal. cbn [scalar_tags] in Htags.
    induction IH as [| x l Hx _ IHl]; [reflexivity |].
    cbn [flat_map] in Htags. apply Forall_app in Htags as [Hhead Htail].
    now rewrite (Hx Hhead), (IHl Htail).
  - cbn [construct_object]. f_equal. cbn [scalar_tags] in Htags.
    induction IH as [| [k x] l [Hk Hx] _ IHl]; [reflexivity |].
    cbn [flat_map fst snd] in *. apply Forall_app in Htags as [Hhead Htail].
    apply Forall_app in Hhead as [Hkey Hval].
    now rewrite (Hk Hkey), (Hx Hval), (IHl Htail).
Qed.

(** X8: a document none of whose scalars has a tag bound to the
    environment constructor is built by the parser to the same value, or
    fails with the same exception, in every environment; what [read_yaml]
    returns for it in one environment it returns in the other. *)
Theorem yaml_load_environment_free
    (lib : Library) (env1 env2 : gmap string string) (fs1 fs2 : file_system)
    (registry : gmap string custom_constructor) (calls1 calls2 : list event)
    (content : string) (n : node) :
  compose lib content = Ok (Some n) ->
  Forall (fun tag => module_constructors registry !! tag <> Some env_var_constructor_id)
    (scalar_tags n) ->
  yaml_load lib (World env1 fs1 registry calls1) content =
    yaml_load lib (World env2 fs2 registry calls2) content
  /\ (forall x,
      yaml_load lib (World env1 fs1 registry calls1) content = Ok x ->
      outcome (read_yaml lib content) (World env2 fs2 registry calls2) =
      Ok (py_or x empty_dict)).
Proof.
  intros Hdoc Htags.
  assert (Hload : yaml_load lib (World env1 fs1 registry calls1) content =
                  yaml_load lib (World env2 fs2 registry calls2) content).
  { rewrite !(yaml_load_composed lib _ content n Hdoc). cbn.
    now apply construct_object_environment. }
  split; [exact Hload |].
  intros x Hx. apply read_yaml_loaded. now rewrite <- Hload.
Qed.

(** X8 on the sample: a mapping of two strings, with and without [FOO]. *)
Lemma yaml_load_environment_free_witness :
  yaml_load Sample.library (World {[ "FOO" := "bar" ]} ∅ ∅ []) "key: bar" =
    yaml_load Sample.library (World ∅ ∅ ∅ []) "key: bar"
  /\ outcome (read_yaml Sample.library "key: bar") (World ∅ ∅ ∅ []) =
     Ok (PyDict [(PyStr "key", PyStr "bar")]).
Proof.
  destruct (yaml_load_environment_free Sample.library {[ "FOO" := "bar" ]} ∅ ∅ ∅ ∅ [] []
              "key: bar"
              (MappingNode [(ScalarNode str_tag "key", ScalarNode str_tag "bar")]) eq_refl)
    as [Hsame Hread].
  - repeat constructor; discriminate.
  - split; [exact Hsame |].
    apply (Hread (PyDict [(PyStr "key", PyStr "bar")])). reflexivity.
Defined.

(** ** Configuration files *)

(** X9: whatever [read_config_file] returns is a dict, and it is what
    [read_yaml_file] returns for the same file. *)
Theorem read_config_file_returns_dict (lib : Library) (w : world) (filename : string) (v : pyval) :
  outcome (read_config_file lib filename) w = Ok v ->
  isinstance_dict v = true /\ outcome (read_yaml_file lib filename) w = Ok v.
Proof.
  unfold outcome. rewrite read_config_file_unfold, read_yaml_file_unfold.
  destruct (read_text (files w) filename "utf-8") as [text | e0]; [| cbn [snd]; discriminate].
  pose proof (read_yaml_returns lib text w) as Hreturns. unfold outcome in Hreturns.
  destruct (read_yaml lib text w) as [w' [content | e]]; cbn [snd] in *; [| discriminate].
  destruct (Hreturns content eq_refl) as [Htrue | ->].
  - destruct content; cbn in *; try congruence; intros [= <-]; now split.
  - intros [= <-]. now split.
Qed.

(** X9 on the sample: a file of one comment. *)
Lemma read_config_file_returns_dict_witness :
  isinstance_dict (PyDict []) = true
  /\ outcome (read_yaml_file Sample.library "comment.yml") Sample.files_process = Ok (PyDict []).
Proof.
  apply (read_config_file_returns_dict Sample.library Sample.files_process "comment.yml").
  reflexivity.
Defined.

(** X10: a file whose document is a value that is true in a condition and
    no dict (a text, a number, [True], a list with items) is refused by
    [read_config_file] with the value's type in the message, and returned by
    [read_yaml_file]. *)
Theorem read_config_file_refuses (lib : Library) (w : world) (filename text : string) (v : pyval) :
  files w !! filename = Some (RegularFile text) ->
  yaml_load lib w text = Ok v ->
  truthy v = true ->
  isinstance_dict v = false ->
  outcome (read_config_file lib filename) w =
    Raise (ValueError
      ("Tried to load invalid config file '" +:+ filename
       +:+ "'. Expected a key value mapping but found " +:+ type_name v +:+ "."))
  /\ outcome (read_yaml_file lib filename) w = Ok v.
Proof.
  intros Hfile Hload Htrue Hdict. unfold outcome.
  rewrite read_config_file_unfold, read_yaml_file_unfold.
  rewrite (read_text_regular _ _ _ _ Hfile), read_yaml_unfold, Hload.
  cbn. unfold py_or. rewrite Htrue.
  destruct v; try discriminate; split; reflexivity.
Qed.

(** X10 on the sample: a file that holds one word. *)
Lemma read_config_file_refuses_witness :
  outcome (read_config_file Sample.library "name.yml") scalar_process =
    Raise (ValueError
      "Tried to load invalid config file 'name.yml'. Expected a key value mapping but found <class 'str'>.")
  /\ outcome (read_yaml_file Sample.library "name.yml") scalar_process = Ok (PyStr "bar").
Proof.
  apply (read_config_file_refuses Sample.library scalar_process "name.yml" "bar" (PyStr "bar"));
    reflexivity.
Defined.

(** X11: only the missing file is turned into a [ValueError]: on a
    directory, and on a file that is no text in the encoding, the three
    readers let the exception of [open] and [read] through, and the process
    is as before. *)
Theorem readers_propagate (lib : Library) (loads : string -> result pyval)
    (w : world) (cwd filename : string) :
  (files w !! filename = Some Directory ->
     read_yaml_file lib filename w = (w, Raise (OSError EISDIR filename))
     /\ read_config_file lib filename w = (w, Raise (OSError EISDIR filename))
     /\ read_json_file loads cwd filename w = (w, Raise (OSError EISDIR filename)))
  /\ (files w !! filename = Some Undecodable ->
     read_yaml_file lib filename w = (w, Raise (UnicodeError "utf-8"))
     /\ read_config_file lib filename w = (w, Raise (UnicodeError "utf-8"))
     /\ read_json_file loads cwd filename w = (w, Raise (UnicodeError "utf-8"))).
Proof.
  split; intros Hfile;
    rewrite read_yaml_file_unfold, read_config_file_unfold;
    unfold read_json_file, bind; rewrite read_file_unfold;
    [rewrite (read_text_directory _ _ _ Hfile) | rewrite (read_text_undecodable _ _ _ Hfile)];
    repeat split; reflexivity.
Qed.

(** X11 on the sample: the directory of the models. *)
Lemma readers_propagate_witness :
  read_yaml_file Sample.library "models" scalar_process =
    (scalar_process, Raise (OSError EISDIR "models"))
  /\ read_config_file Sample.library "models" scalar_process =
    (scalar_process, Raise (OSError EISDIR "models"))
  /\ read_json_file loads_sample "/srv" "models" scalar_process =
    (scalar_process, Raise (OSError EISDIR "models")).
Proof.
  apply (readers_propagate Sample.library loads_sample scalar_process "/srv" "models").
  reflexivity.
Defined.

(** ** JSON files *)

Lemma read_json_file_unfold (loads : string -> result pyval) (cwd filename : string) (w : world) :
  read_json_file loads cwd filename w =
  (w, match read_text (files w) filename "utf-8" with
      | Raise e => Raise e
      | Ok content =>
          match loads content with
          | Ok v => Ok v
          | Raise (ValueError reason) | Raise (UnicodeError reason) =>
              Raise (ValueError (failed_json_error (abspath cwd filename) reason))
          | Raise e => Raise e
          end
      end).
Proof.
  unfold read_json_file, bind. rewrite read_file_unfold.
  destruct (read_text (files w) filename "utf-8") as [content | e]; [| reflexivity].
  unfold try_except, lift, raise.
  destruct (loads content) as [v | e]; [reflexivity | destruct e; reflexivity].
Qed.

(** X12: [read_json_file] returns the decoder's value as it is, a value
    that is false in a condition too; a [ValueError] of the decoder is
    raised anew with the absolute path of the file and the decoder's
    message; a path on which [open] raises [FileNotFoundError] is reported
    by [read_file]'s own message, with the path as it was given. *)
Theorem read_json_file_outcomes (loads : string -> result pyval)
    (w : world) (cwd filename : string) :
  (forall content v,
      files w !! filename = Some (RegularFile content) ->
      loads content = Ok v ->
      outcome (read_json_file loads cwd filename) w = Ok v)
  /\ (forall content reason,
      files w !! filename = Some (RegularFile content) ->
      loads content = Raise (ValueError reason) ->
      outcome (read_json_file loads cwd filename) w =
      Raise (ValueError
        ("Failed to read json from '" +:+ abspath cwd filename +:+ "'. Error: " +:+ reason)))
  /\ (open_read filename "utf-8" w = (w, Raise (OSError ENOENT filename)) ->
      outcome (read_json_file loads cwd filename) w =
      Raise (ValueError ("File '" +:+ filename +:+ "' does not exist."))).
Proof.
  unfold outcome. rewrite read_json_file_unfold. cbn [snd]. repeat split.
  - intros content v Hfile Hloads. now rewrite (read_text_regular _ _ _ _ Hfile), Hloads.
  - intros content reason Hfile Hloads. now rewrite (read_text_regular _ _ _ _ Hfile), Hloads.
  - intros Hopen. now rewrite (read_text_not_found _ _ _ Hopen).
Qed.

(** X12 on the sample: an empty object, a text that is no JSON, and a path
    into a directory that does not exist. *)
Lemma read_json_file_outcomes_witness :
  outcome (read_json_file loads_sample "/srv" "empty.json") scalar_process = Ok (PyDict [])
  /\ outcome (read_json_file loads_sample "/srv" "broken.json") scalar_process =
     Raise (ValueError
       "Failed to read json from '/srv/broken.json'. Error: Expecting value: line 1 column 1 (char 0)")
  /\ outcome (read_json_file loads_sample "/srv" "../etc/missing.json") scalar_process =
     Raise (ValueError "File '../etc/missing.json' does not exist.").
Proof.
  split; [| split].
  - apply (read_json_file_outcomes loads_sample scalar_process "/srv" "empty.json")
      with (content := "{}"); reflexivity.
  - apply (read_json_file_outcomes loads_sample scalar_process "/srv" "broken.json")
      with (content := "not json"); reflexivity.
  - apply (read_json_file_outcomes loads_sample scalar_process "/srv" "../etc/missing.json").
    reflexivity.
Defined.

(** ** Absolute paths *)

Ltac starts_with_sep := unfold isabs; apply prefix_spec; eexists; cbn; reflexivity.

Lemma isabs_cons (p : string) : isabs p = true -> exists rest, p = String "/" rest.
Proof.
  unfold isabs. intros H. apply prefix_spec in H as [rest ->]. now exists rest.
Qed.

Lemma normpath_isabs (p : string) : isabs p = true -> isabs (normpath p) = true.
Proof.
  intros H. destruct (isabs_cons p H) as [rest ->]. unfold normpath.
  unfold isabs in H. rewrite H. cbn [String.eqb].
  destruct (String.prefix "//" (String "/" rest) && negb (String.prefix "///" (String "/" rest)));
    cbn [repeat_sep]; unfold isabs;
    match goal with |- context [String sep ?s +:+ ?t] =>
      change (String sep s +:+ t) with (String "/" (s +:+ t)) end;
    cbn [String.eqb]; apply prefix_spec; eexists; reflexivity.
Qed.

Lemma abspath_isabs (cwd p : string) : isabs cwd = true -> isabs (abspath cwd p) = true.
Proof.
  intros Hcwd. unfold abspath. apply normpath_isabs.
  destruct (isabs p) eqn:Hp; [exact Hp |].
  unfold path_join. unfold isabs in Hp. rewrite Hp.
  destruct (isabs_cons cwd Hcwd) as [rest ->].
  destruct (String.eqb (String "/" rest) "" ||
            String.eqb (String.substring (String.length (String "/" rest) - 1) 1 (String "/" rest)) "/");
    starts_with_sep.
Qed.

Lemma dirname_isabs (p : string) : isabs p = true -> isabs (dirname p) = true.
Proof.
  intros H. destruct (isabs_cons p H) as [rest ->]. unfold dirname.
  cbn [through_last_sep contains_char]. replace (Ascii.eqb sep "/") with true by reflexivity.
  cbn [orb].
  destruct (negb (String.eqb (String "/" (through_last_sep rest)) "") &&
            negb (all_sep (String "/" (through_last_sep rest)))) eqn:E; [| starts_with_sep].
  apply andb_prop in E as [_ E]. apply negb_true_iff in E.
  cbn [rstrip_sep]. rewrite E. starts_with_sep.
Qed.

Lemma dirname_bare (p : string) : contains_char sep p = false -> dirname p = "".
Proof.
  intros H. unfold dirname.
  assert (Hhead : through_last_sep p = "") by (destruct p; cbn [through_last_sep]; [| rewrite H]; reflexivity).
  now rewrite Hhead.
Qed.

(** ** Making directories *)

Lemma create_path_unfold (lib : Library) (cwd file_path : string) (w : world) :
  create_path lib cwd file_path w =
  let parent_dir := dirname (abspath cwd file_path) in
  if path_exists (files w) parent_dir then (w, Ok tt)
  else
    let made := os_makedirs lib parent_dir (files w) in
    (log_call (Makedirs parent_dir) (set_files (fst made) w),
     match snd made with
     | None => Ok tt
     | Some e => Raise e
     end).
Proof.
  unfold create_path, bind, get_world, makedirs, ret. cbn zeta.
  destruct (path_exists (files w) (dirname (abspath cwd file_path))); cbn; [reflexivity |].
  destruct (os_makedirs lib (dirname (abspath cwd file_path)) (files w)) as [fs [e |]]; reflexivity.
Qed.

(** X13: in a process whose working directory is an absolute path,
    [create_path] calls the library once at most, and with an absolute path
    (so never with the empty one, whatever file path it was given). *)
Theorem create_path_absolute (lib : Library) (w : world) (cwd file_path : string) :
  isabs cwd = true ->
  calls (after (create_path lib cwd file_path) w) = calls w
  \/ (exists name,
      isabs name = true
      /\ calls (after (create_path lib cwd file_path) w) = (calls w ++ [Makedirs name])%list).
Proof.
  intros Hcwd. unfold after. rewrite create_path_unfold. cbn zeta.
  destruct (path_exists (files w) (dirname (abspath cwd file_path))); [now left | right].
  exists (dirname (abspath cwd file_path)). split; [| reflexivity].
  now apply dirname_isabs, abspath_isabs.
Qed.

(** X13 on the sample: a bare file name, in [/srv]. *)
Lemma create_path_absolute_witness :
  calls (after (create_path Sample.library "/srv" "report.txt") Sample.models_process) =
    [Makedirs "/srv"].
Proof.
  destruct (create_path_absolute Sample.library Sample.models_process "/srv" "report.txt" eq_refl)
    as [Hnone | (name & Habs & Hcalls)].
  - discriminate Hnone.
  - reflexivity.
Defined.

(** X14: when the directory of the absolute path exists, [create_path]
    makes no call and changes nothing; and, for an [os.makedirs] after whose
    return the path exists, a second call after one that returned is of that
    kind. *)
Theorem create_path_idempotent (lib : Library) :
  (forall name fs fs', os_makedirs lib name fs = (fs', None) -> is_Some (fs' !! name)) ->
  forall (w : world) (cwd file_path : string),
    (path_exists (files w) (dirname (abspath cwd file_path)) = true ->
       create_path lib cwd file_path w = (w, Ok tt))
    /\ (outcome (create_path lib cwd file_path) w = Ok tt ->
       create_path lib cwd file_path (after (create_path lib cwd file_path) w) =
       (after (create_path lib cwd file_path) w, Ok tt)).
Proof.
  intros Hmade w cwd file_path.
  assert (Hthere : forall w0,
             path_exists (files w0) (dirname (abspath cwd file_path)) = true ->
             create_path lib cwd file_path w0 = (w0, Ok tt)).
  { intros w0 H. rewrite create_path_unfold. cbn zeta. now rewrite H. }
  split; [apply Hthere |].
  intros Hfirst. apply Hthere. revert Hfirst. unfold outcome, after.
  rewrite create_path_unfold. cbn zeta.
  destruct (path_exists (files w) (dirname (abspath cwd file_path))) eqn:E; [now intros _ |].
  destruct (os_makedirs lib (dirname (abspath cwd file_path)) (files w)) as [fs [e |]] eqn:Hcall;
    cbn; [discriminate |].
  intros _. unfold path_exists. destruct (Hmade _ _ _ Hcall) as [entry ->]. reflexivity.
Qed.

Lemma makedirs_sample_returned (name : string) (fs fs' : file_system) :
  Sample.makedirs_sample name fs = (fs', None) -> is_Some (fs' !! name).
Proof. intros H. apply (makedirs_sample_made name fs fs' None H). now left. Qed.

(** X14 on the sample: the directory of the models exists; and a report's
    directories are made by the first call. *)
Lemma create_path_idempotent_witness :
  create_path Sample.library "/" "models/nlu.yml"
    (Sample.process ∅ {[ "/models" := Directory ]}) =
    (Sample.process ∅ {[ "/models" := Directory ]}, Ok tt)
  /\ create_path Sample.library "/srv" "out/run1/report.txt"
       (after (create_path Sample.library "/srv" "out/run1/report.txt") Sample.models_process) =
     (after (create_path Sample.library "/srv" "out/run1/report.txt") Sample.models_process, Ok tt).
Proof.
  split.
  - apply (create_path_idempotent Sample.library makedirs_sample_returned
             (Sample.process ∅ {[ "/models" := Directory ]}) "/" "models/nlu.yml").
    reflexivity.
  - apply (create_path_idempotent Sample.library makedirs_sample_returned
             Sample.models_process "/srv" "out/run1/report.txt").
    reflexivity.
Defined.

(** X15: on a file path without a slash the directory handed to
    [os.makedirs] is the empty path, and whatever [OSError] but
    [FileExistsError] the library raises for it is what
    [create_directory_for_file] raises. *)
Theorem create_directory_for_file_bare_name (lib : Library) (w : world)
    (file_path : string) (fs : file_system) (errno : Z) (filename : string) :
  contains_char sep file_path = false ->
  os_makedirs lib "" (files w) = (fs, Some (OSError errno filename)) ->
  errno <> EEXIST ->
  create_directory_for_file lib file_path w =
  (log_call (Makedirs "") (set_files fs w), Raise (OSError errno filename)).
Proof.
  intros Hbare Hcall Herrno.
  rewrite create_directory_for_file_unfold, (dirname_bare file_path Hbare), Hcall. cbn.
  apply Z.eqb_neq in Herrno. now rewrite Herrno.
Qed.

(** X15 on the sample: [os.makedirs] answers the empty path with
    [FileNotFoundError], though the working directory exists. *)
Lemma create_directory_for_file_bare_name_witness :
  create_directory_for_file Sample.library "report.txt" Sample.models_process =
  (log_call (Makedirs "") (set_files (files Sample.models_process) Sample.models_process),
   Raise (OSError ENOENT "")).
Proof.
  apply (create_directory_for_file_bare_name Sample.library Sample.models_process "report.txt"
           (files Sample.models_process) ENOENT ""); [reflexivity | reflexivity | discriminate].
Defined.

(** ** The subdirectory test as a relation *)

Lemma contains_refl (s : string) : contains s s = true.
Proof. apply contains_spec. exists "", "". cbn. now rewrite append_empty_r. Qed.

Lemma contains_trans (a b c : string) :
  contains a b = true -> contains b c = true -> contains a c = true.
Proof.
  rewrite !contains_spec. intros (b1 & b2 & ->) (c1 & c2 & ->).
  exists (c1 +:+ b1), (b2 +:+ c2). now rewrite !append_assoc.
Qed.

(** X16: every path is a subdirectory of itself; the test is transitive;
    it is false as soon as an argument is [None]; and in a process whose
    working directory is absolute, every path is a subdirectory of the
    root. *)
Theorem is_subdirectory_relation (cwd : string) :
  (forall path, is_subdirectory cwd (Some path) (Some path) = true)
  /\ (forall path middle parent,
      is_subdirectory cwd (Some path) (Some middle) = true ->
      is_subdirectory cwd (Some middle) (Some parent) = true ->
      is_subdirectory cwd (Some path) (Some parent) = true)
  /\ (forall other, is_subdirectory cwd None other = false
                    /\ is_subdirectory cwd other None = false)
  /\ (isabs cwd = true -> forall path, is_subdirectory cwd (Some path) (Some "/") = true).
Proof.
  split; [| split; [| split]].
  - intros path. apply contains_refl.
  - intros path middle parent H1 H2. unfold is_subdirectory in *.
    exact (contains_trans _ _ _ H2 H1).
  - intros [other |]; split; reflexivity.
  - intros Hcwd path. unfold is_subdirectory.
    destruct (isabs_cons _ (abspath_isabs cwd path Hcwd)) as [rest ->].
    apply contains_spec. exists "", rest. reflexivity.
Qed.

(** X16 on a relative path. *)
Lemma is_subdirectory_relation_witness :
  is_subdirectory "/srv/rasa" (Some "models/../data") (Some "/") = true
  /\ is_subdirectory "/srv/rasa" (Some "models/nlu") (Some "/srv") = true.
Proof.
  destruct (is_subdirectory_relation "/srv/rasa") as (_ & Htrans & _ & Hroot).
  split.
  - apply (Hroot eq_refl).
  - apply (Htrans "models/nlu" "models"); reflexivity.
Defined.

(** ** The validator of file paths *)

Lemma endswith_spec (s suffix : string) :
  endswith s suffix = true <-> exists before, s = before +:+ suffix.
Proof.
  induction s as [| c s IH].
  - cbn [endswith]. rewrite orb_false_r, String.eqb_eq. split.
    + intros <-. now exists "".
    + intros [[| d before] H]; cbn in H; [now subst | discriminate].
  - cbn [endswith]. rewrite orb_true_iff, String.eqb_eq, IH. split.
    + intros [<- | [before ->]]; [now exists "" | now exists (String c before)].
    + intros [[| d before] H]; cbn in H.
      * now left.
      * right. injection H as _ ->. now exists before.
Qed.

(** X17: the validator accepts a text exactly when it ends with one of
    the file types, as a piece of text; it refuses the missing text, and
    every text when no file type is given, with the message it was made
    with; a file type that is the empty string makes it accept every
    text. *)
Theorem validate_accepts (valid_file_types : list string) (error_message : string) :
  (forall path,
      validate valid_file_types error_message (Some path) = Accepted <->
      exists file_type before, In file_type valid_file_types /\ path = before +:+ file_type)
  /\ (forall text,
      validate valid_file_types error_message text = Accepted
      \/ validate valid_file_types error_message text = ValidationError error_message)
  /\ validate valid_file_types error_message None = ValidationError error_message
  /\ (forall text, validate [] error_message text = ValidationError error_message)
  /\ (In "" valid_file_types ->
      forall path, validate valid_file_types error_message (Some path) = Accepted).
Proof.
  assert (Haccept : forall path,
             validate valid_file_types error_message (Some path) = Accepted <->
             exists file_type before,
               In file_type valid_file_types /\ path = before +:+ file_type).
  { intros path. unfold validate.
    destruct (existsb (fun file_type => endswith path file_type) valid_file_types) eqn:E; cbn.
    - split; [intros _ | reflexivity].
      apply existsb_exists in E as (file_type & Hin & Hend).
      apply endswith_spec in Hend as [before ->]. now exists file_type, before.
    - split; [discriminate |]. intros (file_type & before & Hin & Hpath).
      apply not_true_iff_false in E. destruct E.
      apply existsb_exists. exists file_type. split; [exact Hin |].
      apply endswith_spec. now exists before. }
  split; [exact Haccept | split; [| split; [| split]]].
  - intros text. unfold validate.
    destruct text as [path |]; [| now right].
    destruct (existsb _ valid_file_types); [now left | now right].
  - reflexivity.
  - intros [path |]; reflexivity.
  - intros Hin path. apply Haccept. exists "", path. split; [exact Hin |].
    now rewrite append_empty_r.
Qed.

(** X17 on two file types. *)
Lemma validate_accepts_witness :
  validate [".md"; ".json"] "Please provide a valid export path" (Some "data/nlu.md") = Accepted
  /\ validate [".md"; ""] "Please provide a valid export path" (Some "data") = Accepted.
Proof.
  destruct (validate_accepts [".md"; ".json"] "Please provide a valid export path")
    as (Hsuffix & _).
  destruct (validate_accepts [".md"; ""] "Please provide a valid export path")
    as (_ & _ & _ & _ & Hany).
  split.
  - apply Hsuffix. exists ".md", "data/nlu". split; [now left | reflexivity].
  - apply Hany. right. now left.
Defined.

(** ** The pattern of the implicit resolver *)

Ltac normalize_app := repeat first [rewrite append_assoc | progress cbn [String.append]].

Lemma contains_char_split (c : ascii) (s : string) :
  contains_char c s = true -> exists before rest, s = before +:+ String c rest.
Proof.
  induction s as [| d s IH]; cbn [contains_char]; [discriminate |].
  destruct (Ascii.eqb c d) eqn:E.
  - intros _. apply Ascii.eqb_eq in E. subst d. now exists "", s.
  - cbn. intros H. destruct (IH H) as (before & rest & ->). now exists (String d before), rest.
Qed.

Lemma contains_char_app_false (c : ascii) (a b : string) :
  contains_char c (a +:+ b) = false ->
  contains_char c a = false /\ contains_char c b = false.
Proof. rewrite contains_char_app. apply orb_false_elim. Qed.

Lemma contains_char_cons_false (c d : ascii) (s : string) :
  contains_char c (String d s) = false -> contains_char c s = false.
Proof. cbn [contains_char]. intros H. now apply orb_false_elim in H. Qed.

Lemma split_on_cases (c : ascii) (s piece : string) :
  (contains_char c s = false /\ split_on c piece s = [piece +:+ s])
  \/ (exists before rest,
      s = before +:+ String c rest
      /\ contains_char c before = false
      /\ split_on c piece s = (piece +:+ before) :: split_on c "" rest).
Proof.
  revert piece. induction s as [| d s IH]; intros piece.
  - left. split; [reflexivity | now rewrite append_empty_r].
  - cbn [split_on contains_char]. destruct (Ascii.eqb d c) eqn:E.
    + right. apply Ascii.eqb_eq in E. subst d. exists "", s.
      repeat split. now rewrite append_empty_r.
    + rewrite Ascii.eqb_sym, E. cbn [orb].
      destruct (IH (piece +:+ String d "")) as [[Hno Hsplit] | (before & rest & -> & Hno & Hsplit)].
      * left. split; [exact Hno |]. now rewrite Hsplit, append_assoc.
      * right. exists (String d before), rest. repeat split.
        -- cbn [contains_char]. now rewrite Ascii.eqb_sym, E.
        -- now rewrite Hsplit, append_assoc.
Qed.

Lemma split_on_some (c : ascii) (s piece : string) : split_on c piece s <> [].
Proof.
  destruct (split_on_cases c s piece) as [[_ ->] | (before & rest & _ & _ & ->)]; discriminate.
Qed.

Lemma after_open_brace_found (s r : string) :
  after_open_brace s = Some r -> exists before, s = before +:+ "${" +:+ r.
Proof.
  induction s as [| c s IH]; cbn [after_open_brace]; [discriminate |].
  destruct s as [| d s']; [discriminate |].
  destruct (Ascii.eqb c "$" && Ascii.eqb d "{") eqn:E.
  - intros [= <-]. apply andb_prop in E as [Hc Hd].
    apply Ascii.eqb_eq in Hc, Hd. subst c d. now exists "".
  - intros H. destruct (IH H) as [before ->]. now exists (String c before).
Qed.

Lemma after_open_brace_finds (before rest : string) :
  exists r skipped, after_open_brace (before +:+ "${" +:+ rest) = Some r /\ r = skipped +:+ rest.
Proof.
  induction before as [| c before IH].
  - exists rest, "". split; reflexivity.
  - destruct IH as (r & skipped & Hfind & Hr).
    change (String c before +:+ "${" +:+ rest) with (String c (before +:+ "${" +:+ rest)).
    cbn [after_open_brace].
    destruct (before +:+ "${" +:+ rest) as [| d tail] eqn:Htail.
    + destruct before; discriminate.
    + destruct (Ascii.eqb c "$" && Ascii.eqb d "{") eqn:E.
      * (* the text already opens a brace here: what follows ends with [rest] *)
        exists tail.
        destruct before as [| e before'].
        -- cbn in Htail. injection Htail as <- <-. exists "{". split; reflexivity.
        -- cbn in Htail. injection Htail as <- <-.
           exists (before' +:+ "${"). split; [reflexivity | now rewrite append_assoc].
      * exists r, skipped. split; [exact Hfind | exact Hr].
Qed.

Lemma split_on_trailing (c : ascii) (piece line : string) :
  contains_char c line = false ->
  split_on c piece (line +:+ String c "") = [piece +:+ line; ""].
Proof.
  revert piece. induction line as [| d line IH]; intros piece H.
  - cbn. rewrite Ascii.eqb_refl. now rewrite append_empty_r.
  - cbn [contains_char] in H. apply orb_false_elim in H as [Hd Hline].
    change (String d line +:+ String c "") with (String d (line +:+ String c "")).
    cbn [split_on]. rewrite Ascii.eqb_sym in Hd. rewrite Hd, (IH _ Hline).
    now rewrite append_assoc.
Qed.

(** X18: the pattern the module registers holds of a scalar exactly when
    the scalar is one line (a line break may end it) in which a dollar sign
    and an opening brace are followed, somewhere, by a closing brace. *)
Theorem env_var_pattern_spec (value : string) :
  env_var_pattern value = true <->
  exists a b c tail,
    value = a +:+ "${" +:+ b +:+ "}" +:+ c +:+ tail
    /\ (tail = "" \/ tail = String (chr 10) "")
    /\ contains_char (chr 10) (a +:+ b +:+ c) = false.
Proof.
  unfold env_var_pattern. split.
  - assert (Hline : forall line tail,
               contains_char (chr 10) line = false ->
               tail = "" \/ tail = String (chr 10) "" ->
               match after_open_brace line with
               | Some rest => contains_char "}" rest
               | None => false
               end = true ->
               exists a b c tail0,
                 line +:+ tail = a +:+ "${" +:+ b +:+ "}" +:+ c +:+ tail0
                 /\ (tail0 = "" \/ tail0 = String (chr 10) "")
                 /\ contains_char (chr 10) (a +:+ b +:+ c) = false).
    { intros line tail Hno Htail Hmatch.
      destruct (after_open_brace line) as [rest |] eqn:Hfind; [| discriminate].
      apply after_open_brace_found in Hfind as [a ->].
      apply contains_char_split in Hmatch as (b & c & ->).
      exists a, b, c, tail. split; [| split; [exact Htail |]].
      - normalize_app. reflexivity.
      - apply contains_char_app_false in Hno as [Ha Hrest].
        change ("${" +:+ b +:+ String "}" c) with (String "$" (String "{" (b +:+ String "}" c)))
          in Hrest.
        do 2 apply contains_char_cons_false in Hrest.
        apply contains_char_app_false in Hrest as [Hb Hc].
        apply contains_char_cons_false in Hc.
        now rewrite !contains_char_app, Ha, Hb, Hc. }
    destruct (split_on_cases (chr 10) value "") as [[Hno ->] | (before & rest & -> & Hno & ->)].
    + cbn [String.append]. intros H.
      destruct (Hline value "" Hno (or_introl eq_refl) H) as (a & b & c & tail & Heq & Htail & Hclean).
      rewrite append_empty_r in Heq. now exists a, b, c, tail.
    + cbn [String.append].
      destruct (split_on_cases (chr 10) rest "") as [[Hrest ->] | (b' & r' & -> & _ & ->)].
      * cbn [String.append]. destruct rest; [| discriminate].
        intros H. apply (Hline before (String (chr 10) "") Hno (or_intror eq_refl) H).
      * pose proof (split_on_some (chr 10) r' "") as Hsome.
        destruct (split_on (chr 10) "" r'); [congruence |]. destruct b'; discriminate.
  - intros (a & b & c & tail & -> & Htail & Hclean).
    rewrite !contains_char_app in Hclean.
    apply orb_false_elim in Hclean as [Ha Hbc]. apply orb_false_elim in Hbc as [Hb Hc].
    set (line := a +:+ "${" +:+ b +:+ "}" +:+ c).
    assert (Hline : contains_char (chr 10) line = false).
    { unfold line. rewrite contains_char_app, Ha. cbn. rewrite contains_char_app, Hb. cbn.
      exact Hc. }
    assert (Hfound : match after_open_brace line with
                     | Some rest => contains_char "}" rest
                     | None => false
                     end = true).
    { unfold line. destruct (after_open_brace_finds a (b +:+ "}" +:+ c)) as (r & skipped & -> & ->).
      rewrite !contains_char_app. cbn. now rewrite !orb_true_r. }
    replace (a +:+ "${" +:+ b +:+ "}" +:+ c +:+ tail) with (line +:+ tail)
      by (unfold line; normalize_app; reflexivity).
    destruct Htail as [-> | ->].
    + rewrite append_empty_r, (split_on_absent _ "" line Hline). exact Hfound.
    + rewrite (split_on_trailing _ "" line Hline). exact Hfound.
Qed.

(** ** A placeholder that cannot be resolved, anywhere in a document *)

Lemma construct_object_rejected
    (lib : Library) (environ : gmap string string)
    (registry : gmap string custom_constructor) (value : string) (e0 : exn) (n : node) :
  registry !! env_var_tag = Some env_var_constructor_id ->
  env_var_constructor environ value = Raise e0 ->
  holds_scalar env_var_tag value n = true ->
  exists e, construct_object lib environ registry n = Raise e.
Proof.
  intros Hreg Hrejected.
  induction n as [tag value' | items IH | pairs IH] using node_induction; intros Hholds.
  - cbn in Hholds. apply andb_prop in Hholds as [Htag Hvalue].
    apply String.eqb_eq in Htag, Hvalue. subst tag value'.
    exists e0. cbn. unfold construct_scalar. now rewrite Hreg.
  - cbn [holds_scalar] in Hholds. cbn [construct_object].
    match goal with |- exists e, rbind ?built _ = _ =>
      assert (Hbuilt : exists e, built = Raise e); [| destruct Hbuilt as [e ->]; now exists e]
    end.
    induction IH as [| x l Hx _ IHl]; [discriminate |].
    cbn [existsb] in Hholds.
    destruct (construct_object lib environ registry x) as [v | e] eqn:Ex; [| now exists e].
    destruct (holds_scalar env_var_tag value x) eqn:Hhere.
    + destruct (Hx eq_refl) as [e He]. discriminate.
    + destruct (IHl Hholds) as [e ->]. now exists e.
  - cbn [holds_scalar] in Hholds. cbn [construct_object].
    match goal with |- exists e, rbind ?built _ = _ =>
      assert (Hbuilt : exists e, built = Raise e); [| destruct Hbuilt as [e ->]; now exists e]
    end.
    induction IH as [| [k x] l [Hk Hx] _ IHl]; [discriminate |].
    cbn [existsb fst snd] in *.
    destruct (construct_object lib environ registry k) as [key | e] eqn:Ek; [| now exists e].
    destruct (construct_object lib environ registry x) as [v | e] eqn:Ex; [| now exists e].
    destruct (holds_scalar env_var_tag value k) eqn:Hkey.
    + destruct (Hk eq_refl) as [e He]. discriminate.
    + destruct (holds_scalar env_var_tag value x) eqn:Hval.
      * destruct (Hx eq_refl) as [e He]. discriminate.
      * destruct (IHl Hholds) as [e ->]. now exists e.
Qed.

(** X19: a document that holds, at any depth, the placeholder of a variable
    the environment does not set is not built: the parse inside [read_yaml]
    raises, and [read_yaml] does not return from its first parse. *)
Theorem yaml_load_unresolved_anywhere
    (lib : Library) (w : world) (content name : string) (n : node) :
  contains_char "}" name = false ->
  environ w !! name = None ->
  compose lib content = Ok (Some n) ->
  holds_scalar env_var_tag (placeholder name) n = true ->
  exists e,
    yaml_load lib w content = Raise e
    /\ (outcome (read_yaml lib content) w = Raise e
        \/ exists problem, e = ScannerError problem).
Proof.
  intros Hname Hunset Hdoc Hholds.
  destruct (construct_object_rejected lib (environ w)
              (module_constructors (yaml_constructors w)) (placeholder name) _ n
              (module_constructors_env_var _)
              (env_var_constructor_unset _ name Hname Hunset) Hholds) as [e He].
  exists e. rewrite (yaml_load_composed lib w content n Hdoc). split; [exact He |].
  destruct e; try (left; apply read_yaml_raised;
                   [now rewrite (yaml_load_composed lib w content n Hdoc) | discriminate]).
  right. now exists problem.
Qed.

(** X19 on the sample: the placeholder is the value of a key. *)
Lemma yaml_load_unresolved_anywhere_witness :
  exists e,
    yaml_load Sample.library Sample.foo_process "key: ${MISSING}" = Raise e
    /\ (outcome (read_yaml Sample.library "key: ${MISSING}") Sample.foo_process = Raise e
        \/ exists problem, e = ScannerError problem).
Proof.
  apply (yaml_load_unresolved_anywhere Sample.library Sample.foo_process "key: ${MISSING}" "MISSING"
           (MappingNode [(ScalarNode str_tag "key", ScalarNode env_var_tag "${MISSING}")]));
    reflexivity.
Defined.

(** ** Absolute paths are normal forms *)

Lemma split_on_pieces (c : ascii) (piece s : string) :
  contains_char c piece = false ->
  Forall (fun x => contains_char c x = false) (split_on c piece s).
Proof.
  revert piece. induction s as [| d s IH]; intros piece Hpiece; cbn [split_on].
  - now constructor.
  - destruct (Ascii.eqb d c) eqn:E.
    + constructor; [exact Hpiece | now apply IH].
    + apply IH. rewrite contains_char_app, Hpiece. cbn. now rewrite Ascii.eqb_sym, E.
Qed.

Lemma clean_comp_spec (comp : string) :
  clean_comp comp = true ->
  String.eqb comp "" = false /\ String.eqb comp "." = false /\ String.eqb comp ".." = false
  /\ contains_char sep comp = false.
Proof.
  unfold clean_comp. intros H.
  repeat (apply andb_prop in H as [H ?]).
  repeat split; now apply negb_true_iff.
Qed.

Lemma norm_comps_clean (k : nat) (new_comps comps : list string) :
  k <> 0 ->
  Forall (fun x => clean_comp x = true) new_comps ->
  Forall (fun x => contains_char sep x = false) comps ->
  Forall (fun x => clean_comp x = true) (norm_comps k new_comps comps).
Proof.
  intros Hk. revert new_comps.
  induction comps as [| comp rest IH]; intros new_comps Hnew Hcomps; cbn [norm_comps].
  - now apply Forall_rev.
  - apply Forall_cons_1 in Hcomps as [Hcomp Hrest].
    destruct (String.eqb comp "" || String.eqb comp ".") eqn:Eskip; [now apply IH |].
    apply orb_false_elim in Eskip as [Hempty Hdot].
    assert (Hlast : match new_comps with
                    | last :: _ => String.eqb last ".."
                    | [] => false
                    end = false).
    { destruct new_comps as [| last ?]; [reflexivity |].
      apply Forall_cons_1 in Hnew as [Hlast _].
      now apply clean_comp_spec in Hlast as (_ & _ & ? & _). }
    rewrite Hlast. apply Nat.eqb_neq in Hk. rewrite Hk. cbn [andb orb]. rewrite orb_false_r.
    destruct (String.eqb comp "..") eqn:Edd; cbn [negb].
    + apply IH; [| exact Hrest]. destruct new_comps; [constructor |].
      now apply Forall_cons_1 in Hnew as [_ ?].
    + apply IH; [| exact Hrest]. constructor; [| exact Hnew].
      unfold clean_comp. now rewrite Hempty, Hdot, Edd, Hcomp.
Qed.

Lemma norm_comps_of_clean (k : nat) (new_comps comps : list string) :
  Forall (fun x => clean_comp x = true) comps ->
  norm_comps k new_comps comps = (rev new_comps ++ comps)%list.
Proof.
  revert new_comps. induction comps as [| comp rest IH]; intros new_comps Hcomps; cbn [norm_comps].
  - now rewrite app_nil_r.
  - apply Forall_cons_1 in Hcomps as [Hcomp Hrest].
    apply clean_comp_spec in Hcomp as (Hempty & Hdot & Hdd & _).
    rewrite Hempty, Hdot, Hdd. cbn [orb negb].
    rewrite (IH _ Hrest). cbn [rev]. now rewrite <- app_assoc.
Qed.

Lemma split_on_before_sep (c : ascii) (piece x rest : string) :
  contains_char c x = false ->
  split_on c piece (x +:+ String c rest) = (piece +:+ x) :: split_on c "" rest.
Proof.
  revert piece. induction x as [| d x IH]; intros piece H.
  - cbn. rewrite Ascii.eqb_refl. now rewrite append_empty_r.
  - cbn [contains_char] in H. apply orb_false_elim in H as [Hd Hx].
    change (String d x +:+ String c rest) with (String d (x +:+ String c rest)).
    cbn [split_on]. rewrite Ascii.eqb_sym in Hd. rewrite Hd, (IH _ Hx).
    now rewrite append_assoc.
Qed.

Lemma split_on_join (comps : list string) :
  Forall (fun x => contains_char sep x = false) comps ->
  comps <> [] ->
  split_on sep "" (join "/" comps) = comps.
Proof.
  induction comps as [| comp rest IH]; intros Hcomps Hsome; [congruence |].
  apply Forall_cons_1 in Hcomps as [Hcomp Hrest].
  destruct rest as [| next rest'].
  - cbn [join]. now rewrite (split_on_absent sep "" comp Hcomp).
  - change (join "/" (comp :: next :: rest')) with (comp +:+ String sep (join "/" (next :: rest'))).
    rewrite (split_on_before_sep sep "" comp _ Hcomp). cbn [String.append].
    f_equal. now apply IH.
Qed.

Lemma prefix_empty (s : string) : String.prefix "" s = true.
Proof. now destruct s. Qed.

Lemma prefix_cons_same (a : ascii) (s1 s2 : string) :
  String.prefix (String a s1) (String a s2) = String.prefix s1 s2.
Proof. cbn. destruct (ascii_dec a a); [reflexivity | congruence]. Qed.

Lemma prefix_cons (a b : ascii) (s1 s2 : string) :
  String.prefix (String a s1) (String b s2) =
  if Ascii.eqb a b then String.prefix s1 s2 else false.
Proof.
  change (String.prefix (String a s1) (String b s2))
    with (if ascii_dec a b then String.prefix s1 s2 else false).
  destruct (ascii_dec a b), (Ascii.eqb_spec a b); congruence.
Qed.

Lemma join_clean_head (comps : list string) :
  Forall (fun x => clean_comp x = true) comps ->
  String.prefix "/" (join "/" comps) = false.
Proof.
  intros H. destruct comps as [| comp rest]; [reflexivity |].
  apply Forall_cons_1 in H as [Hcomp _].
  apply clean_comp_spec in Hcomp as (Hempty & _ & _ & Hsep).
  destruct comp as [| c comp]; [discriminate |].
  cbn [contains_char] in Hsep. apply orb_false_elim in Hsep as [Hc _].
  assert (Hhead : exists tail, join "/" (String c comp :: rest) = String c tail).
  { destruct rest; cbn [join]; eexists; reflexivity. }
  destruct Hhead as [tail ->].
  change "/" with (String sep ""). now rewrite prefix_cons, Hc.
Qed.

Lemma clean_no_sep (comps : list string) :
  Forall (fun x => clean_comp x = true) comps ->
  Forall (fun x => contains_char sep x = false) comps.
Proof.
  intros Hclean. eapply Forall_impl; [exact Hclean |].
  intros comp H. now apply clean_comp_spec in H as (_ & _ & _ & ?).
Qed.

(** The components of a normal absolute path come back from splitting it. *)
Lemma norm_comps_split_join (k : nat) (comps : list string) :
  Forall (fun x => clean_comp x = true) comps ->
  norm_comps k [] (split_on sep "" (join "/" comps)) = comps.
Proof.
  intros H. destruct comps as [| comp rest].
  - reflexivity.
  - rewrite (split_on_join (comp :: rest) (clean_no_sep _ H)) by discriminate.
    now rewrite (norm_comps_of_clean k [] _ H).
Qed.

Lemma normpath_normal (k : nat) (comps : list string) :
  k = 1 \/ k = 2 ->
  Forall (fun x => clean_comp x = true) comps ->
  normpath (repeat_sep k +:+ join "/" comps) = repeat_sep k +:+ join "/" comps.
Proof.
  intros Hk Hcomps. pose proof (join_clean_head comps Hcomps) as Hhead.
  pose proof (norm_comps_split_join k comps Hcomps) as Hsplit.
  assert (Hone : forall tail, String.prefix "/" (String sep tail) = true).
  { intros tail. change "/" with (String sep ""). now rewrite prefix_cons_same, prefix_empty. }
  assert (Hskip : forall tail new_comps,
             norm_comps k new_comps (split_on sep "" (String sep tail)) =
             norm_comps k new_comps (split_on sep "" tail)).
  { intros tail new_comps. cbn [split_on]. rewrite Ascii.eqb_refl. reflexivity. }
  unfold normpath. destruct Hk as [-> | ->]; cbn [repeat_sep String.append] in *.
  - assert (Htwo : String.prefix "//" (String sep (join "/" comps)) = false).
    { change "//" with (String sep "/"). now rewrite prefix_cons_same. }
    rewrite Hone, Htwo. cbn [andb repeat_sep String.append].
    rewrite Hskip, Hsplit. reflexivity.
  - assert (Htwo : String.prefix "//" (String sep (String sep (join "/" comps))) = true).
    { change "//" with (String sep "/"). now rewrite prefix_cons_same. }
    assert (Hthree : String.prefix "///" (String sep (String sep (join "/" comps))) = false).
    { change "///" with (String sep (String sep "/")). now rewrite !prefix_cons_same. }
    rewrite Hone, Htwo, Hthree. cbn [andb negb repeat_sep String.append].
    rewrite !Hskip, Hsplit. reflexivity.
Qed.

Lemma normpath_form (p : string) :
  isabs p = true ->
  exists k comps,
    (k = 1 \/ k = 2)
    /\ Forall (fun x => clean_comp x = true) comps
    /\ normpath p = repeat_sep k +:+ join "/" comps.
Proof.
  intros H. destruct (isabs_cons p H) as [rest ->]. unfold normpath.
  unfold isabs in H. rewrite H. cbn [String.eqb].
  set (k := if String.prefix "//" (String "/" rest) && negb (String.prefix "///" (String "/" rest))
            then 2 else 1).
  assert (Hk : k = 1 \/ k = 2) by (unfold k; destruct (_ && _); [now right | now left]).
  exists k, (norm_comps k [] (split_on sep "" (String "/" rest))).
  split; [exact Hk | split].
  - apply norm_comps_clean; [destruct Hk; lia | constructor |].
    now apply split_on_pieces.
  - destruct Hk as [-> | ->]; reflexivity.
Qed.

Lemma normpath_idempotent (p : string) :
  isabs p = true -> normpath (normpath p) = normpath p.
Proof.
  intros H. destruct (normpath_form p H) as (k & comps & Hk & Hcomps & ->).
  now apply normpath_normal.
Qed.

(** X20: in a process whose working directory is absolute, the absolute
    path of an absolute path is that path, so [is_subdirectory] answers for
    two paths as it answers for their absolute paths. *)
Theorem is_subdirectory_of_absolute (cwd : string) :
  isabs cwd = true ->
  (forall path, abspath cwd (abspath cwd path) = abspath cwd path)
  /\ (forall path parent,
      is_subdirectory cwd (Some (abspath cwd path)) (Some (abspath cwd parent)) =
      is_subdirectory cwd (Some path) (Some parent)).
Proof.
  intros Hcwd.
  assert (Hidem : forall path, abspath cwd (abspath cwd path) = abspath cwd path).
  { intros path. pose proof (abspath_isabs cwd path Hcwd) as Habs.
    unfold abspath at 1. rewrite Habs. unfold abspath.
    apply normpath_idempotent.
    destruct (isabs path) eqn:Hp; [exact Hp |].
    unfold path_join. unfold isabs in Hp. rewrite Hp.
    destruct (isabs_cons cwd Hcwd) as [rest ->].
    destruct (String.eqb (String "/" rest) "" ||
              String.eqb (String.substring (String.length (String "/" rest) - 1) 1 (String "/" rest)) "/");
      starts_with_sep. }
  split; [exact Hidem |].
  intros path parent. unfold is_subdirectory. now rewrite !Hidem.
Qed.

(** X20 on a path that climbs and a relative parent. *)
Lemma is_subdirectory_of_absolute_witness :
  abspath "/srv/rasa" (abspath "/srv/rasa" "models/../data/./nlu.md") = "/srv/rasa/data/nlu.md"
  /\ is_subdirectory "/srv/rasa" (Some "/srv/rasa/data/nlu.md") (Some "/srv/rasa/data") =
     is_subdirectory "/srv/rasa" (Some "models/../data/./nlu.md") (Some "data").
Proof.
  destruct (is_subdirectory_of_absolute "/srv/rasa" eq_refl) as [Hidem Hsame].
  split.
  - rewrite Hidem. reflexivity.
  - exact (Hsame "models/../data/./nlu.md" "data").
Defined.

(** ** What the constructor can answer *)

Lemma split_ws_keeps (c : ascii) (word s : string) :
  isspace c = false ->
  contains_char c word || contains_char c s = true ->
  Exists (fun w => contains_char c w = true) (split_ws word s).
Proof.
  intros Hc. revert word. induction s as [| d s IH]; intros word H; cbn [split_ws].
  - cbn [contains_char] in H. rewrite orb_false_r in H.
    destruct word; [discriminate | now constructor].
  - cbn [contains_char] in H. destruct (isspace d) eqn:Hd.
    + assert (Hne : Ascii.eqb c d = false).
      { destruct (Ascii.eqb_spec c d); [congruence | reflexivity]. }
      rewrite Hne in H. cbn [orb] in H.
      destruct word as [| x word'].
      * apply IH. exact H.
      * destruct (contains_char c (String x word')) eqn:Hword.
        -- now constructor.
        -- apply Exists_cons_tl. apply IH. exact H.
    + apply IH. rewrite contains_char_app. cbn [contains_char].
      rewrite orb_false_r, <- orb_assoc. exact H.
Qed.

(** X21: [env_var_constructor] answers in one of two ways: the expanded
    text, which then holds no dollar sign, or a [ValueError] whose message
    quotes the scalar and lists at least one word, each listed word with a
    dollar sign in it. *)
Theorem env_var_constructor_answers (environ : gmap string string) (value : string) :
  (exists expanded,
      env_var_constructor environ value = Ok (PyStr expanded)
      /\ expanded = expandvars environ value
      /\ contains_char "$" expanded = false)
  \/ (exists not_expanded,
      env_var_constructor environ value =
        Raise (ValueError (expansion_error value not_expanded))
      /\ not_expanded <> []
      /\ Forall (fun w => contains_char "$" w = true) not_expanded).
Proof.
  unfold env_var_constructor.
  destruct (contains_char "$" (expandvars environ value)) eqn:E.
  - right. exists (List.filter (contains_char "$") (py_split (expandvars environ value))).
    split; [reflexivity | split].
    + assert (Hkept : Exists (fun w => contains_char "$" w = true)
                        (py_split (expandvars environ value))).
      { apply split_ws_keeps; [reflexivity | exact E]. }
      apply Exists_exists in Hkept as (w & Hin & Hw).
      intros Hnil.
      assert (Hfiltered : In w (List.filter (contains_char "$")
                                  (py_split (expandvars environ value)))).
      { apply filter_In. split; [| exact Hw]. now apply list_elem_of_In. }
      rewrite Hnil in Hfiltered. destruct Hfiltered.
    + apply List.Forall_forall. intros w Hin. now apply filter_In in Hin as [_ ?].
  - left. exists (expandvars environ value). now repeat split.
Qed.

(** ** Writing, then reading *)

Lemma read_yaml_set_files (lib : Library) (content : string) (fs : file_system) (w : world) :
  outcome (read_yaml lib content) (set_files fs w) = outcome (read_yaml lib content) w.
Proof.
  assert (Hload : forall c, yaml_load lib (set_files fs w) c = yaml_load lib w c)
    by reflexivity.
  unfold outcome. rewrite !read_yaml_unfold. cbn zeta. rewrite Hload.
  destruct (yaml_load lib w content) as [x | e]; [reflexivity |].
  destruct e; try reflexivity.
  destruct (reencode lib content) as [content' | e']; [| reflexivity].
  cbn. now rewrite Hload.
Qed.

(** X22: after a [write_yaml_file] that opened the file, [read_file] on
    the same path returns exactly the text the serializer wrote (all of it
    when the call returned, the part written when the serializer raised, and
    in neither case what the file held before), and [read_yaml_file] answers
    as [read_yaml] answers for that text. *)
Theorem write_yaml_file_then_read
    (lib : Library) (open_for_writing : string -> file_system -> option exn)
    (dump : pyval -> string * option exn)
    (w : world) (data : pyval) (filename : string) :
  open_for_writing filename (files w) = None ->
  outcome (read_file filename "utf-8")
    (after (write_yaml_file open_for_writing dump data filename) w) = Ok (fst (dump data))
  /\ outcome (read_yaml_file lib filename)
       (after (write_yaml_file open_for_writing dump data filename) w) =
     outcome (read_yaml lib (fst (dump data))) w
  /\ outcome (write_yaml_file open_for_writing dump data filename) w =
     match snd (dump data) with
     | None => Ok tt
     | Some e => Raise e
     end.
Proof.
  intros Hopen.
  assert (Hafter : after (write_yaml_file open_for_writing dump data filename) w =
                   set_files (<[filename := RegularFile (fst (dump data))]> (files w)) w
                   /\ outcome (write_yaml_file open_for_writing dump data filename) w =
                      match snd (dump data) with
                      | None => Ok tt
                      | Some e => Raise e
                      end).
  { unfold after, outcome, write_yaml_file. rewrite Hopen.
    destruct (dump data) as [written [e |]]; split; reflexivity. }
  destruct Hafter as [-> Hout].
  assert (Hread : forall encoding,
             read_text (<[filename := RegularFile (fst (dump data))]> (files w)) filename encoding =
             Ok (fst (dump data))).
  { intros encoding. apply read_text_regular, lookup_insert_eq. }
  split; [| split; [| exact Hout]].
  - unfold outcome. rewrite read_file_unfold. cbn [snd files set_files]. apply Hread.
  - unfold outcome at 1. rewrite read_yaml_file_unfold. cbn [files set_files].
    rewrite Hread. apply read_yaml_set_files.
Qed.

(** X22 on the sample: a mapping, then the empty list, written over an
    older file. *)
Lemma write_yaml_file_then_read_witness :
  outcome (read_file "name.yml" "utf-8")
    (after (write_yaml_file open_sample dump_sample (PyDict [(PyStr "key", PyStr "bar")]) "name.yml")
       scalar_process) = Ok ("key: bar" +:+ Sample.nl)
  /\ outcome (read_file "name.yml" "utf-8")
       (after (write_yaml_file open_sample dump_sample (PyList []) "name.yml") scalar_process) =
     Ok ("[]" +:+ Sample.nl)
  /\ outcome (write_yaml_file open_sample dump_sample (PyList []) "name.yml") scalar_process =
     Ok tt.
Proof.
  split; [| split].
  - apply (write_yaml_file_then_read Sample.library open_sample dump_sample scalar_process
             (PyDict [(PyStr "key", PyStr "bar")]) "name.yml" eq_refl).
  - apply (write_yaml_file_then_read Sample.library open_sample dump_sample scalar_process
             (PyList []) "name.yml" eq_refl).
  - apply (write_yaml_file_then_read Sample.library open_sample dump_sample scalar_process
             (PyList []) "name.yml" eq_refl).
Defined.

(** * Paths that name nothing *)








(** * Placeholders in a document *)

Lemma expandvars_no_dollar (environ : gmap string string) (s : string) :
  contains_char "$" s = false -> expandvars environ s = s.
Proof.
  intros H. unfold expandvars. apply expand_loop_no_match. now apply search_var_no_dollar.
Qed.

(** A placeholder the environment does not set stays, and the text after
    it is expanded on its own. *)
Lemma expandvars_unset_then (environ : gmap string string) (literal name rest : string) :
  contains_char "$" literal = false ->
  contains_char "}" name = false ->
  environ !! name = None ->
  expandvars environ (literal +:+ placeholder name +:+ rest) =
  literal +:+ placeholder name +:+ expandvars environ rest.
Proof.
  intros Hliteral Hname Hunset.
  rewrite <- (expand_loop_enough environ
                (S (String.length (literal +:+ placeholder name +:+ rest)))) by lia.
  cbn [expand_loop].
  rewrite (search_var_literal literal _ Hliteral), (search_var_placeholder_then name rest Hname).
  cbn [vm_name vm_before vm_matched vm_tail].
  rewrite append_empty_r, Hunset.
  now rewrite (expand_loop_enough environ _ rest) by (rewrite !length_app; lia).
Qed.

Lemma unresolved_spec (environ : gmap string string) (name : string) :
  unresolved environ name = true ->
  environ !! name = None /\ contains_char "}" name = false /\ no_space name = true.
Proof.
  unfold unresolved. destruct (environ !! name); [discriminate |].
  intros H. apply andb_prop in H as [Hbrace Hspace].
  repeat split; [now apply negb_true_iff | exact Hspace].
Qed.

Lemma placeholders_cons (name next : string) (rest : list string) :
  placeholders (name :: next :: rest) =
  placeholder name +:+ String " " (placeholders (next :: rest)).
Proof. reflexivity. Qed.

(** [expandvars] leaves a scalar of unresolved placeholders as it is. *)
Lemma expandvars_placeholders (environ : gmap string string) (names : list string) :
  forallb (unresolved environ) names = true ->
  forall literal,
    contains_char "$" literal = false ->
    expandvars environ (literal +:+ placeholders names) = literal +:+ placeholders names.
Proof.
  induction names as [| name rest IH]; intros Hnames literal Hliteral.
  - unfold placeholders. cbn [map join]. rewrite append_empty_r.
    now apply expandvars_no_dollar.
  - cbn [forallb] in Hnames. apply andb_prop in Hnames as [Hname Hrest].
    apply unresolved_spec in Hname as (Hunset & Hbrace & _).
    destruct rest as [| next rest'].
    + unfold placeholders. cbn [map join].
      rewrite <- (append_empty_r (placeholder name)) at 1.
      rewrite (expandvars_unset_then environ literal name "" Hliteral Hbrace Hunset).
      rewrite (expandvars_no_dollar environ "" eq_refl). now rewrite append_empty_r.
    + rewrite placeholders_cons.
      rewrite (expandvars_unset_then environ literal name _ Hliteral Hbrace Hunset).
      do 2 f_equal.
      change (String " " (placeholders (next :: rest')))
        with (" " +:+ placeholders (next :: rest')).
      now apply IH.
Qed.

Lemma no_space_placeholder (name : string) :
  no_space name = true -> no_space (placeholder name) = true.
Proof.
  intros Hname. unfold placeholder, no_space. simpl.
  replace (negb (isspace "$")) with true by reflexivity.
  replace (negb (isspace "{")) with true by reflexivity.
  simpl. induction name as [| c name IH]; [reflexivity |].
  cbn [no_space all_chars] in Hname. apply andb_prop in Hname as [Hc Hs].
  simpl. rewrite Hc. now apply IH.
Qed.

(** [split] ends a word at the first whitespace after it. *)
Lemma split_ws_word (word s t : string) :
  no_space s = true ->
  word +:+ s <> "" ->
  split_ws word (s +:+ String " " t) = (word +:+ s) :: split_ws "" t.
Proof.
  revert word. induction s as [| c s IH]; intros word Hs Hne.
  - rewrite append_empty_r in *. cbn [String.append split_ws].
    replace (isspace " ") with true by reflexivity.
    destruct word; [congruence | reflexivity].
  - cbn [no_space all_chars] in Hs. apply andb_prop in Hs as [Hc Hs].
    change (String c s +:+ String " " t) with (String c (s +:+ String " " t)).
    cbn [split_ws]. apply negb_true_iff in Hc. rewrite Hc.
    rewrite (IH (word +:+ String c "") Hs).
    + now rewrite append_assoc.
    + rewrite append_assoc. simpl. destruct word; discriminate.
Qed.

(** The words of a scalar of placeholders are the placeholders. *)
Lemma py_split_placeholders (names : list string) :
  Forall (fun name => no_space name = true) names ->
  py_split (placeholders names) = map placeholder names.
Proof.
  unfold py_split. induction names as [| name rest IH]; intros Hnames; [reflexivity |].
  apply Forall_cons_1 in Hnames as [Hname Hrest].
  destruct rest as [| next rest'].
  - unfold placeholders. cbn [map join].
    rewrite (split_ws_one_word "" (placeholder name) (no_space_placeholder name Hname));
      [reflexivity | discriminate].
  - rewrite placeholders_cons.
    rewrite (split_ws_word "" (placeholder name) _ (no_space_placeholder name Hname));
      [| discriminate].
    cbn [String.append map]. f_equal. now apply IH.
Qed.

Lemma filter_placeholders (names : list string) :
  List.filter (contains_char "$") (map placeholder names) = map placeholder names.
Proof.
  induction names as [| name rest IH]; [reflexivity |].
  cbn [map List.filter]. replace (contains_char "$" (placeholder name)) with true by reflexivity.
  now rewrite IH.
Qed.

Lemma contains_dollar_placeholders (literal : string) (names : list string) :
  names <> [] -> contains_char "$" (literal +:+ placeholders names) = true.
Proof.
  intros Hsome. rewrite contains_char_app. apply orb_true_iff. right.
  destruct names as [| name [| next rest]]; [congruence | reflexivity | reflexivity].
Qed.

(** The constructor on a scalar of placeholders none of which is resolved:
    its message lists them all. *)
Lemma env_var_constructor_placeholders (environ : gmap string string) (names : list string) :
  names <> [] ->
  forallb (unresolved environ) names = true ->
  env_var_constructor environ (placeholders names) =
  Raise (ValueError (expansion_error (placeholders names) (map placeholder names))).
Proof.
  intros Hsome Hnames. unfold env_var_constructor.
  pose proof (expandvars_placeholders environ names Hnames "" eq_refl) as Hexpand.
  cbn [String.append] in Hexpand. rewrite Hexpand.
  pose proof (contains_dollar_placeholders "" names Hsome) as Hdollar.
  cbn [String.append] in Hdollar. rewrite Hdollar.
  rewrite py_split_placeholders, filter_placeholders; [reflexivity |].
  clear -Hnames. induction names as [| name rest IH]; [constructor |].
  cbn [forallb] in Hnames. apply andb_prop in Hnames as [Hname Hrest].
  constructor; [| now apply IH]. now apply unresolved_spec in Hname as (_ & _ & ?).
Qed.

(** The resolver's pattern holds of a one-line scalar that starts with a
    placeholder. *)
Lemma env_var_pattern_starts (name rest : string) :
  contains_char (chr 10) (name +:+ rest) = false ->
  env_var_pattern (placeholder name +:+ rest) = true.
Proof.
  intros Hline. unfold env_var_pattern.
  rewrite (split_on_absent (chr 10) "" (placeholder name +:+ rest)).
  - unfold placeholder. cbn. rewrite append_assoc, contains_char_app.
    cbn. apply orb_true_iff. right. reflexivity.
  - unfold placeholder. rewrite !append_assoc. cbn.
    rewrite contains_char_app in *. apply orb_false_elim in Hline as [Hname Hrest].
    now rewrite Hname.
Qed.

(** C1 (as amended): a plain scalar that is the placeholder of a variable
    the environment sets (to a text without a dollar sign) loads as the
    variable's value, at the top of the document and, like the string it
    stands for, anywhere in it; a quoted scalar, which the resolver gives
    the string tag, loads as the text it holds, a placeholder among it
    untouched; a plain scalar of placeholders none of which the environment
    resolves fails the load with the constructor's [ValueError], whose
    message quotes the scalar and lists every one of the placeholders, at the
    top of the document and as the value of a key; so fails, listing the
    words with a dollar sign, every [!env_var] scalar whose expansion holds
    one; and the resolver's pattern holds of every one-line scalar that
    starts with a placeholder. *)
Theorem read_yaml_env_var (lib : Library) (w : world) :
  (forall content name value,
      contains_char "}" name = false ->
      environ w !! name = Some value ->
      contains_char "$" value = false ->
      value <> "" ->
      compose lib content = Ok (Some (ScalarNode env_var_tag (placeholder name))) ->
      outcome (read_yaml lib content) w = Ok (PyStr value))
  /\ (forall content content' name n value,
      contains_char "}" name = false ->
      environ w !! name = Some value ->
      contains_char "$" value = false ->
      compose lib content = Ok (Some n) ->
      compose lib content' = Ok (Some (resolve_scalar (placeholder name) value n)) ->
      yaml_load lib w content = yaml_load lib w content')
  /\ (forall content value,
      value <> "" ->
      compose lib content = Ok (Some (ScalarNode str_tag value)) ->
      outcome (read_yaml lib content) w = Ok (PyStr value))
  /\ (forall content key value,
      compose lib content =
        Ok (Some (MappingNode [(ScalarNode str_tag key, ScalarNode str_tag value)])) ->
      outcome (read_yaml lib content) w = Ok (PyDict [(PyStr key, PyStr value)]))
  /\ (forall content names,
      names <> [] ->
      forallb (unresolved (environ w)) names = true ->
      compose lib content = Ok (Some (ScalarNode env_var_tag (placeholders names))) ->
      outcome (read_yaml lib content) w =
      Raise (ValueError (expansion_error (placeholders names) (map placeholder names))))
  /\ (forall content key names,
      names <> [] ->
      forallb (unresolved (environ w)) names = true ->
      compose lib content =
        Ok (Some (MappingNode
                    [(ScalarNode str_tag key, ScalarNode env_var_tag (placeholders names))])) ->
      outcome (read_yaml lib content) w =
      Raise (ValueError (expansion_error (placeholders names) (map placeholder names))))
  /\ (forall content value,
      contains_char "$" (expandvars (environ w) value) = true ->
      compose lib content = Ok (Some (ScalarNode env_var_tag value)) ->
      outcome (read_yaml lib content) w =
      Raise (ValueError
        (expansion_error value
           (List.filter (contains_char "$") (py_split (expandvars (environ w) value))))))
  /\ (forall name rest,
      contains_char (chr 10) (name +:+ rest) = false ->
      env_var_pattern (placeholder name +:+ rest) = true).
Proof.
  pose proof (module_constructors_env_var (yaml_constructors w)) as Henv.
  pose proof (module_constructors_str (yaml_constructors w)) as Hstr.
  split; [| split; [| split; [| split; [| split; [| split; [| split]]]]]].
  - intros content name value Hname Hset Hdollar Hne Hdoc.
    rewrite (read_yaml_loaded lib w content (PyStr value)).
    + unfold py_or. now rewrite truthy_str.
    + rewrite (yaml_load_composed lib w content _ Hdoc).
      rewrite construct_env_var_scalar by exact Henv.
      now apply env_var_constructor_set.
  - intros content content' name n value Hname Hset Hdollar Hdoc Hdoc'.
    rewrite (yaml_load_composed lib w content _ Hdoc).
    rewrite (yaml_load_composed lib w content' _ Hdoc').
    symmetry. apply construct_resolved; try assumption.
    now apply env_var_constructor_set.
  - intros content value Hne Hdoc.
    rewrite (read_yaml_loaded lib w content (PyStr value)).
    + unfold py_or. now rewrite truthy_str.
    + rewrite (yaml_load_composed lib w content _ Hdoc).
      now rewrite construct_str_scalar by exact Hstr.
  - intros content key value Hdoc.
    rewrite (read_yaml_loaded lib w content (PyDict [(PyStr key, PyStr value)])); [reflexivity |].
    rewrite (yaml_load_composed lib w content _ Hdoc).
    cbn [construct_object]. fold (construct_object lib).
    change (construct_scalar lib ?e ?r ?t ?v) with (construct_object lib e r (ScalarNode t v)).
    now rewrite !construct_str_scalar by exact Hstr.
  - intros content names Hsome Hnames Hdoc.
    apply read_yaml_raised; [| discriminate].
    rewrite (yaml_load_composed lib w content _ Hdoc).
    rewrite construct_env_var_scalar by exact Henv.
    now apply env_var_constructor_placeholders.
  - intros content key names Hsome Hnames Hdoc.
    apply read_yaml_raised; [| discriminate].
    rewrite (yaml_load_composed lib w content _ Hdoc).
    cbn [construct_object]. fold (construct_object lib).
    change (construct_scalar lib ?e ?r ?t ?v) with (construct_object lib e r (ScalarNode t v)).
    rewrite construct_str_scalar by exact Hstr.
    rewrite construct_env_var_scalar by exact Henv.
    now rewrite (env_var_constructor_placeholders _ names Hsome Hnames).
  - intros content value Hdollar Hdoc.
    apply read_yaml_raised; [| discriminate].
    rewrite (yaml_load_composed lib w content _ Hdoc).
    rewrite construct_env_var_scalar by exact Henv.
    unfold env_var_constructor. now rewrite Hdollar.
  - exact env_var_pattern_starts.
Qed.

(** The C1 theorem on the sample: [FOO=bar] is set, [MISSING] and [USER]
    are not. *)
Lemma read_yaml_env_var_witness :
  outcome (read_yaml Sample.library "${FOO}") Sample.foo_process = Ok (PyStr "bar")
  /\ yaml_load Sample.library Sample.foo_process "key: ${FOO}" =
     yaml_load Sample.library Sample.foo_process "key: bar"
  /\ outcome (read_yaml library_with_placeholders "'${FOO}'") Sample.foo_process =
     Ok (PyStr "${FOO}")
  /\ outcome (read_yaml library_with_placeholders "k: '${FOO}'") Sample.foo_process =
     Ok (PyDict [(PyStr "k", PyStr "${FOO}")])
  /\ outcome (read_yaml Sample.library "${MISSING}") Sample.foo_process =
     Raise (ValueError
       "Error when trying to expand the environment variables in '${MISSING}'. Please make sure to also set these environment variables: '['${MISSING}']'.")
  /\ outcome (read_yaml library_with_placeholders "${MISSING} ${USER}") Sample.foo_process =
     Raise (ValueError
       "Error when trying to expand the environment variables in '${MISSING} ${USER}'. Please make sure to also set these environment variables: '['${MISSING}', '${USER}']'.")
  /\ outcome (read_yaml library_with_placeholders "key: ${MISSING} ${USER}") Sample.foo_process =
     Raise (ValueError
       "Error when trying to expand the environment variables in '${MISSING} ${USER}'. Please make sure to also set these environment variables: '['${MISSING}', '${USER}']'.")
  /\ outcome (read_yaml library_with_placeholders "${MISSING} and ${FOO} $HOME")
       Sample.foo_process =
     Raise (ValueError
       "Error when trying to expand the environment variables in '${MISSING} and ${FOO} $HOME'. Please make sure to also set these environment variables: '['${MISSING}', '$HOME']'.")
  /\ env_var_pattern "${MISSING} ${USER}" = true.
Proof.
  destruct (read_yaml_env_var Sample.library Sample.foo_process)
    as (Hset & Hsame & _ & _ & Hunset & _ & _ & Hpattern).
  destruct (read_yaml_env_var library_with_placeholders Sample.foo_process)
    as (_ & _ & Hquoted & Hquoted_value & Hwords & Hwords_value & Hdollar & _).
  repeat apply conj.
  - apply (Hset "${FOO}" "FOO" "bar"); [reflexivity | reflexivity | reflexivity | discriminate | reflexivity].
  - apply (Hsame "key: ${FOO}" "key: bar" "FOO"
             (MappingNode [(ScalarNode str_tag "key", ScalarNode env_var_tag "${FOO}")]) "bar");
      reflexivity.
  - apply (Hquoted "'${FOO}'" "${FOO}"); [discriminate | reflexivity].
  - apply (Hquoted_value "k: '${FOO}'" "k" "${FOO}"). reflexivity.
  - apply (Hunset "${MISSING}" ["MISSING"]); [discriminate | reflexivity | reflexivity].
  - apply (Hwords "${MISSING} ${USER}" ["MISSING"; "USER"]);
      [discriminate | reflexivity | reflexivity].
  - apply (Hwords_value "key: ${MISSING} ${USER}" "key" ["MISSING"; "USER"]);
      [discriminate | reflexivity | reflexivity].
  - apply (Hdollar "${MISSING} and ${FOO} $HOME" "${MISSING} and ${FOO} $HOME");
      reflexivity.
  - apply (Hpattern "MISSING" " ${USER}"). reflexivity.
Defined.

(** C1 as stated fails on a quoted scalar: the text holds the placeholder
    of [FOO] as the value of a key, the environment sets [FOO], and the
    value [read_yaml] returns for the key is the placeholder, not [bar]. *)
Lemma read_yaml_env_var_counterexample :
  environ Sample.foo_process !! "FOO" = Some "bar"
  /\ compose library_with_placeholders "k: '${FOO}'" =
     Ok (Some (MappingNode [(ScalarNode str_tag "k", ScalarNode str_tag "${FOO}")]))
  /\ outcome (read_yaml library_with_placeholders "k: '${FOO}'") Sample.foo_process =
     Ok (PyDict [(PyStr "k", PyStr "${FOO}")])
  /\ outcome (read_yaml library_with_placeholders "'${FOO}'") Sample.foo_process =
     Ok (PyStr "${FOO}").
Proof. repeat split; reflexivity. Qed.

(** * A file in the working directory *)

(** C8: on a bare file name, in a process whose working directory [/srv]
    exists, [os.path.dirname] gives the empty path, [os.makedirs] raises
    [FileNotFoundError] for it, and [create_directory_for_file] raises that
    error, where the claim has it return; [create_path] returns on the same
    file name. *)
Lemma create_directory_for_file_working_directory :
  dirname "report.txt" = ""
  /\ create_directory_for_file Sample.library "report.txt"
       (Sample.process ∅ {[ "/srv" := Directory ]}) =
     (log_call (Makedirs "") (Sample.process ∅ {[ "/srv" := Directory ]}),
      Raise (OSError ENOENT ""))
  /\ create_path Sample.library "/srv" "report.txt"
       (Sample.process ∅ {[ "/srv" := Directory ]}) =
     (Sample.process ∅ {[ "/srv" := Directory ]}, Ok tt).
Proof. repeat split; reflexivity. Qed.
